(** * xapktool: the XAPK class of [xapktool.py]

    A shallow embedding of [XAPK.__init__], [XAPK.initialize] and
    [XAPK.make_manifest], with the file system and the androguard [APK]
    object taken as an explicit environment, and the object [self]
    together with an event log threaded through a state-and-exception
    monad.  A Python exception keeps every mutation made before it was
    raised, so a failing computation still returns the state it
    reached.

    What the embedding takes for granted: the folder does not change
    during the run and [glob] itself does not raise; a method of the
    [APK] object gives the same answer each time it is called; sizes
    and the integers of the package are unbounded, as Python's are;
    [PurePath.stem] is the one documented up to Python 3.13; names are
    compared byte for byte, as on a POSIX file system. *)

From Stdlib Require Import String Ascii List ZArith Bool Arith Lia.
Import ListNotations.
Local Open Scope string_scope.
Local Open Scope list_scope.

(** ** Python strings *)

Module PyStr.

(** [s.split(sep)] for a separator of one character: the result is
    never empty, and [n] separators give [n + 1] segments. *)
Fixpoint split (sep : ascii) (s : string) : list string :=
  match s with
  | EmptyString => [EmptyString]
  | String c s' =>
      if Ascii.eqb c sep then EmptyString :: split sep s'
      else match split sep s' with
           | [] => [String c EmptyString]
           | h :: t => String c h :: t
           end
  end.

(** [sep.join(l)]. *)
Definition join (sep : string) (l : list string) : string :=
  String.concat sep l.

(** [s.rfind(c)]: the index of the last occurrence of [c], [None] for
    Python's [-1]. *)
Fixpoint rfind (c : ascii) (s : string) : option nat :=
  match s with
  | EmptyString => None
  | String d s' =>
      match rfind c s' with
      | Some i => Some (S i)
      | None => if Ascii.eqb d c then Some 0 else None
      end
  end.

(** [s[:i]]. *)
Definition take (i : nat) (s : string) : string := String.substring 0 i s.

(** [sub in s]. *)
Fixpoint contains (sub s : string) : bool :=
  String.prefix sub s ||
  match s with
  | EmptyString => false
  | String _ s' => contains sub s'
  end.

End PyStr.

(** ** pathlib

    A [Path] below the scanned folder is represented by its [name]; the
    folder itself is a field of the environment. *)

Module Pathlib.

(** [PurePath.stem]: the name without its last suffix,
    [name[:i]] for [i = name.rfind('.')] when [0 < i < len(name) - 1],
    and the whole name otherwise. *)
Definition stem (name : string) : string :=
  match PyStr.rfind "." name with
  | Some i =>
      if ((0 <? i) && (i <? String.length name - 1))%nat
      then PyStr.take i name
      else name
  | None => name
  end.

(** Matching of one path component against a glob pattern made of
    literal characters and [*] (the only wildcard the program uses);
    [*] stands for any run of characters, the empty one included. *)
Fixpoint fnmatch (pat : string) : string -> bool :=
  match pat with
  | EmptyString =>
      fun s => match s with EmptyString => true | String _ _ => false end
  | String c pat' =>
      if Ascii.eqb c "*" then
        fix star (s : string) : bool :=
          fnmatch pat' s ||
          match s with
          | EmptyString => false
          | String _ s' => star s'
          end
      else
        fun s =>
          match s with
          | EmptyString => false
          | String d s' => Ascii.eqb c d && fnmatch pat' s'
          end
  end.

End Pathlib.

(** ** Exceptions and results *)

(** The classes the program raises itself, and [OtherException] for
    every other subclass of [Exception] (an [OSError] of [stat], an
    error of androguard, an [AttributeError]). *)
Inductive ExcClass : Type :=
| ValueError
| FileNotFoundError
| RuntimeError
| OtherException.

(** An exception with [exc_str e] the text of [str(e)]. *)
Record Exc : Type := mkExc { exc_class : ExcClass; exc_str : string }.

Inductive result (A : Type) : Type :=
| Ok (a : A)
| Raise (e : Exc).
Arguments Ok {A} a.
Arguments Raise {A} e.

Definition is_ok {A : Type} (r : result A) : bool :=
  match r with Ok _ => true | Raise _ => false end.

(** ** JSON values and the manifest dict *)

#[local] Unset Elimination Schemes.
Inductive value : Type :=
| VInt (z : Z)
| VStr (s : string)
| VList (l : list value)
| VDict (d : list (string * value)).
#[local] Set Elimination Schemes.

(** A Python [dict] with string keys, in insertion order. *)
Definition dict : Type := list (string * value).

Fixpoint dict_get (k : string) (d : dict) : option value :=
  match d with
  | [] => None
  | (k', v) :: d' => if String.eqb k k' then Some v else dict_get k d'
  end.

(** [d[k] = v]: an existing key keeps its place, a new one goes last. *)
Fixpoint dict_set (k : string) (v : value) (d : dict) : dict :=
  match d with
  | [] => [(k, v)]
  | (k', v') :: d' =>
      if String.eqb k k' then (k', v) :: d' else (k', v') :: dict_set k v d'
  end.

Definition dict_has (k : string) (d : dict) : bool :=
  match dict_get k d with Some _ => true | None => false end.

(** ** The environment: file system and package inspection *)

(** The androguard [APK] object of the base package.  Every method may
    raise; its result types are those of the inspection interface. *)
Record APK : Type := mkAPK {
  get_package : result string;
  get_app_name : result string;
  get_androidversion_code : result Z;
  get_androidversion_name : result string;
  get_min_sdk_version : result Z;
  get_target_sdk_version : result Z;
  get_permissions : result (list string);
  get_app_icon : result string;            (* get_app_icon(max_dpi=65534) *)
  get_file : string -> result (list Byte.byte)
}.

(** What the program can observe of the folder it is given. *)
Record World : Type := mkWorld {
  folder : string;                         (* str(self.folder) *)
  is_dir : bool;                           (* self.folder.is_dir() *)
  entries : list string;                   (* names, in enumeration order *)
  st_size : string -> result Z;            (* (folder / name).stat().st_size *)
  APK_open : string -> result APK          (* APK(folder / name) *)
}.

(** [self.folder.glob(pattern)] for a pattern of one component. *)
Definition glob (w : World) (pattern : string) : list string :=
  filter (Pathlib.fnmatch pattern) (entries w).

(** ** The object and the monad *)

Record XAPK : Type := mkXAPK {
  apk_src : option string;
  obb_files : list string;
  split_config_files : list string;
  apk : option APK;
  manifest : option dict;
  icon : option (list Byte.byte)
}.

(** What the run does to the outside, in the order it happens. *)
Inductive Event : Type :=
| Printed (line : string)
| Stat (name : string)
| Opened (name : string)
| Query (method : string).

Record Store : Type := mkStore { self : XAPK; out : list Event }.

Definition M (A : Type) : Type := Store -> result A * Store.

Definition ret {A : Type} (a : A) : M A := fun st => (Ok a, st).

Definition bind {A B : Type} (m : M A) (k : A -> M B) : M B :=
  fun st =>
    match m st with
    | (Ok a, st') => k a st'
    | (Raise e, st') => (Raise e, st')
    end.

Definition raise {A : Type} (e : Exc) : M A := fun st => (Raise e, st).

(** [try: m  except Exception as e: handler e]. *)
Definition try_except {A : Type} (m : M A) (handler : Exc -> M A) : M A :=
  fun st =>
    match m st with
    | (Ok a, st') => (Ok a, st')
    | (Raise e, st') => handler e st'
    end.

Declare Scope py_scope.
Delimit Scope py_scope with py.
Notation "x <- m ;; k" := (bind m (fun x => k))
  (at level 61, m at next level, right associativity) : py_scope.
Notation "m ;; k" := (bind m (fun _ => k))
  (at level 61, right associativity) : py_scope.
Local Open Scope py_scope.

Definition gets {A : Type} (f : XAPK -> A) : M A :=
  fun st => (Ok (f (self st)), st).

Definition modify (f : XAPK -> XAPK) : M unit :=
  fun st => (Ok tt, mkStore (f (self st)) (out st)).

Definition emit (ev : Event) : M unit :=
  fun st => (Ok tt, mkStore (self st) (out st ++ [ev])).

Definition lift {A : Type} (r : result A) : M A := fun st => (r, st).

Definition print (line : string) : M unit := emit (Printed line).

(** [for x in l: body x]. *)
Fixpoint for_each {A : Type} (l : list A) (body : A -> M unit) : M unit :=
  match l with
  | [] => ret tt
  | x :: l' => body x ;; for_each l' body
  end.

(** A [for] loop that updates local variables, gathered in [acc]. *)
Fixpoint for_fold {A S : Type} (l : list A) (acc : S)
    (body : S -> A -> M S) : M S :=
  match l with
  | [] => ret acc
  | x :: l' => acc' <- body acc x ;; for_fold l' acc' body
  end.

Definition set_apk_src (x : string) (s : XAPK) : XAPK :=
  mkXAPK (Some x) (obb_files s) (split_config_files s) (apk s)
         (manifest s) (icon s).
Definition append_obb_file (x : string) (s : XAPK) : XAPK :=
  mkXAPK (apk_src s) (obb_files s ++ [x]) (split_config_files s) (apk s)
         (manifest s) (icon s).
Definition append_split_config_file (x : string) (s : XAPK) : XAPK :=
  mkXAPK (apk_src s) (obb_files s) (split_config_files s ++ [x]) (apk s)
         (manifest s) (icon s).
Definition set_apk (a : APK) (s : XAPK) : XAPK :=
  mkXAPK (apk_src s) (obb_files s) (split_config_files s) (Some a)
         (manifest s) (icon s).
Definition set_manifest (m : dict) (s : XAPK) : XAPK :=
  mkXAPK (apk_src s) (obb_files s) (split_config_files s) (apk s)
         (Some m) (icon s).
Definition set_icon (b : list Byte.byte) (s : XAPK) : XAPK :=
  mkXAPK (apk_src s) (obb_files s) (split_config_files s) (apk s)
         (manifest s) (Some b).

(** An attribute or method of [None]. *)
Definition AttributeError (attr : string) : Exc :=
  mkExc OtherException
        ("'NoneType' object has no attribute '" ++ attr ++ "'").

(** [path.stat().st_size] *)
Definition stat (w : World) (name : string) : M Z :=
  emit (Stat name) ;; lift (st_size w name).

(** [self.apk.method()] *)
Definition query {A : Type} (method : string) (f : APK -> result A) : M A :=
  a <- gets apk ;;
  match a with
  | None => raise (AttributeError method)
  | Some a => emit (Query method) ;; lift (f a)
  end.

(** The two outer handlers: [raise RuntimeError(f"...: {e}")]. *)
Definition manifest_error (e : Exc) : Exc :=
  mkExc RuntimeError ("Manifest creation: " ++ exc_str e).

Definition initialization_error (e : Exc) : Exc :=
  mkExc RuntimeError ("Initialization: " ++ exc_str e).

(** ** [XAPK.make_manifest] *)

(** The entry of one expansion file in [obb_info]; the package name is
    queried once for ['file'] and once for ['install_path']. *)
Definition obb_entry (p_file p_path obb_name : string) : value :=
  VDict [("file", VStr ("Android/obb/" ++ p_file ++ "/" ++ obb_name));
         ("install_location", VStr "EXTERNAL_STORAGE");
         ("install_path", VStr ("Android/obb/" ++ p_path ++ "/" ++ obb_name))].

(** The entry of one file in [split_apks_info]. *)
Definition split_entry (file id : string) : value :=
  VDict [("file", VStr file); ("id", VStr id)].

(** Body of the loop over [self.obb_files]; the locals are
    [(total_size, obb_info)]. *)
Definition obb_step (w : World) (acc : Z * list value) (obb_file : string)
  : M (Z * list value) :=
  let '(total_size, obb_info) := acc in
  obb_size <- stat w obb_file ;;
  let total_size := (total_size + obb_size)%Z in
  p_file <- query "get_package" get_package ;;
  p_path <- query "get_package" get_package ;;
  ret (total_size, obb_info ++ [obb_entry p_file p_path obb_file]).

(** Body of the loop over [self.split_config_files]; the locals are
    [(total_size, split_apks_info, split_configs_info)]. *)
Definition split_step (w : World) (acc : Z * list value * list value)
    (split_confg_file : string) : M (Z * list value * list value) :=
  let '(total_size, split_apks_info, split_configs_info) := acc in
  split_confg_size <- stat w split_confg_file ;;
  let total_size := (total_size + split_confg_size)%Z in
  let split_config_name := Pathlib.stem split_confg_file in
  ret (total_size,
       split_apks_info ++ [split_entry split_confg_file split_config_name],
       split_configs_info ++ [VStr split_config_name]).

Definition make_manifest_body (w : World) : M dict :=
  src <- gets apk_src ;;
  apk_size <- match src with
              | None => raise (AttributeError "stat")
              | Some p => stat w p
              end ;;
  let total_size := apk_size in
  obbs <- gets obb_files ;;
  r1 <- for_fold obbs (total_size, []) (obb_step w) ;;
  let '(total_size, obb_info) := r1 in
  p <- query "get_package" get_package ;;
  let split_apks_info := [split_entry (p ++ ".apk") "base"] in
  splits <- gets split_config_files ;;
  r2 <- for_fold splits (total_size, split_apks_info, []) (split_step w) ;;
  let '(total_size, split_apks_info, split_configs_info) := r2 in
  package_name <- query "get_package" get_package ;;
  name <- query "get_app_name" get_app_name ;;
  version_code <- query "get_androidversion_code" get_androidversion_code ;;
  version_name <- query "get_androidversion_name" get_androidversion_name ;;
  min_sdk_version <- query "get_min_sdk_version" get_min_sdk_version ;;
  target_sdk_version <- query "get_target_sdk_version" get_target_sdk_version ;;
  permissions <- query "get_permissions" get_permissions ;;
  let manifest : dict :=
    [("xapk_version", VInt 2);
     ("package_name", VStr package_name);
     ("name", VStr name);
     ("version_code", VInt version_code);
     ("version_name", VStr version_name);
     ("min_sdk_version", VInt min_sdk_version);
     ("target_sdk_version", VInt target_sdk_version);
     ("permissions", VList (map VStr permissions));
     ("total_size", VInt total_size);
     ("split_apks", VList split_apks_info)] in
  let manifest :=
    if Nat.eqb (length split_configs_info) 0 then manifest
    else dict_set "split_configs" (VList split_configs_info) manifest in
  let manifest :=
    if Nat.eqb (length obb_info) 0 then manifest
    else dict_set "expansions" (VList obb_info) manifest in
  ret manifest.

Definition make_manifest (w : World) : M dict :=
  try_except (make_manifest_body w) (fun e => raise (manifest_error e)).

(** ** [XAPK.initialize] *)

Definition mismatch_error : Exc :=
  mkExc ValueError "The APK and OBB files do not belong to the same app.".

(** [[obb.stem.split(".")[2:] for obb in self.obb_files]] *)
Definition obb_segments (obbs : list string) : list (list string) :=
  map (fun obb => skipn 2 (PyStr.split "." (Pathlib.stem obb))) obbs.

(** Body of [for i, obb_file in enumerate(self.obb_files)]. *)
Definition verify_step (apk_package_name : string) (i : nat) : M unit :=
  obbs <- gets obb_files ;;
  match nth_error (obb_segments obbs) i with
  | None => raise (mkExc OtherException "list index out of range")
  | Some segs =>
      let obb_package_name := PyStr.join "." segs in
      if String.eqb obb_package_name apk_package_name then ret tt
      else raise mismatch_error
  end.

(** The loop itself, from index [i] over the files still to visit. *)
Fixpoint verify_loop (apk_package_name : string) (i : nat)
    (todo : list string) : M unit :=
  match todo with
  | [] => ret tt
  | _ :: todo' =>
      verify_step apk_package_name i ;;
      verify_loop apk_package_name (S i) todo'
  end.

(** The inner [try] around the icon. *)
Definition load_icon : M unit :=
  try_except
    (a <- gets apk ;;
     match a with
     | None => raise (AttributeError "get_file")
     | Some a =>
         emit (Query "get_app_icon") ;;
         icon_name <- lift (get_app_icon a) ;;
         emit (Query "get_file") ;;
         bytes <- lift (get_file a icon_name) ;;
         modify (set_icon bytes)
     end)
    (fun _ => print "Skip icon: {e}").

(** Lines 23 to 37: the scan of the folder.  It returns the value of
    [self.apk_src] that line 28 found set, which line 39 reads again. *)
Definition find_files (w : World) : M string :=
  (if negb (is_dir w) then
     raise (mkExc ValueError
              ("The specified folder '" ++ folder w
               ++ "' does not exist or is not a directory."))
   else ret tt) ;;
  for_each (glob w "base.apk") (fun x => modify (set_apk_src x)) ;;
  src <- gets apk_src ;;
  match src with
  | None =>
      raise (mkExc FileNotFoundError
               "No APK file found in the specified folder.")
  | Some src =>
      for_each (glob w "*.obb") (fun x => modify (append_obb_file x)) ;;
      for_each (glob w "config.*.apk")
               (fun x => modify (append_split_config_file x)) ;;
      for_each (glob w "asset.*.apk")
               (fun x => modify (append_split_config_file x)) ;;
      obbs <- gets obb_files ;;
      splits <- gets split_config_files ;;
      match obbs, splits with
      | [], [] =>
          raise (mkExc FileNotFoundError
                   "No OBB and split files found in the specified directory.")
      | _, _ => ret src
      end
  end.

(** Lines 46 to 52. *)
Definition verify (w : World) : M unit :=
  print "Verifying APK and OBB..." ;;
  apk_package_name <- query "get_package" get_package ;;
  obbs <- gets obb_files ;;
  verify_loop apk_package_name 0 obbs ;;
  print "Verification: OK".

(** Lines 39 to 52: inspection, manifest, icon, verification. *)
Definition build (w : World) (src : string) : M unit :=
  emit (Opened src) ;;
  a <- lift (APK_open w src) ;;
  modify (set_apk a) ;;
  m <- make_manifest w ;;
  modify (set_manifest m) ;;
  load_icon ;;
  verify w.

Definition initialize_body (w : World) : M unit :=
  src <- find_files w ;;
  build w src.

Definition initialize (w : World) : M unit :=
  try_except (initialize_body w) (fun e => raise (initialization_error e)).

(** ** [XAPK.__init__] *)

Definition new_self : XAPK := mkXAPK None [] [] None None None.

(** The run of [XAPK(folder)]: outcome of [initialize], and the object
    and the log as [initialize] left them. *)
Definition run_init (w : World) : result unit * Store :=
  initialize w (mkStore new_self []).

(** [XAPK(folder)] as its caller sees it: the object, or the exception
    and no object. *)
Definition XAPK_new (w : World) : result XAPK :=
  match run_init w with
  | (Ok _, st) => Ok (self st)
  | (Raise e, _) => Raise e
  end.

(** ** Notions used in the statements *)

(** The store [st] with the events [evs] added to its log. *)
Definition logged (st : Store) (evs : list Event) : Store :=
  mkStore (self st) (out st ++ evs).

(** A computation that leaves the object as it found it, whatever its
    outcome. *)
Definition keeps_self {A : Type} (m : M A) : Prop :=
  forall st r st', m st = (r, st') -> self st' = self st.

(** The identity token of an expansion file: the segments of its stem
    after the first two, joined with dots (line 49 for one file). *)
Definition obb_token (obb : string) : string :=
  PyStr.join "." (skipn 2 (PyStr.split "." (Pathlib.stem obb))).

(** The object as lines 26 to 35 leave it. *)
Definition resolved (w : World) : XAPK :=
  mkXAPK (last (map Some (glob w "base.apk")) None)
         (glob w "*.obb")
         (glob w "config.*.apk" ++ glob w "asset.*.apk")
         None None None.

(** The store in which [make_manifest] is called by [initialize]. *)
Definition inspected (w : World) (src : string) (a : APK) : Store :=
  mkStore (set_apk a (resolved w)) [Opened src].

Definition Zsum (zs : list Z) : Z := fold_right Z.add 0%Z zs.

(** [sizes w names zs]: [stat] succeeds on every name, with sizes [zs]. *)
Definition sizes (w : World) (names : list string) (zs : list Z) : Prop :=
  Forall2 (fun name z => st_size w name = Ok z) names zs.

(** The dict that [make_manifest] returns, in closed form, from the
    answers of the package and the total size. *)
Definition manifest_of (p name : string) (version_code : Z)
    (version_name : string) (min_sdk target_sdk : Z)
    (permissions : list string) (total_size : Z)
    (obbs splits : list string) : dict :=
  let manifest : dict :=
    [("xapk_version", VInt 2);
     ("package_name", VStr p);
     ("name", VStr name);
     ("version_code", VInt version_code);
     ("version_name", VStr version_name);
     ("min_sdk_version", VInt min_sdk);
     ("target_sdk_version", VInt target_sdk);
     ("permissions", VList (map VStr permissions));
     ("total_size", VInt total_size);
     ("split_apks",
      VList (split_entry (p ++ ".apk") "base"
             :: map (fun f => split_entry f (Pathlib.stem f)) splits))] in
  let manifest :=
    match splits with
    | [] => manifest
    | _ :: _ =>
        dict_set "split_configs"
                 (VList (map (fun f => VStr (Pathlib.stem f)) splits)) manifest
    end in
  match obbs with
  | [] => manifest
  | _ :: _ => dict_set "expansions" (VList (map (obb_entry p p) obbs)) manifest
  end.

(** [built w s m]: the folder and the package answer everything
    [make_manifest] asks of them on the object [s], and [m] is the dict
    made of the answers. *)
Inductive built (w : World) (s : XAPK) : dict -> Prop :=
| built_intro src a p name version_code version_name min_sdk target_sdk
    permissions b zs ys :
    apk_src s = Some src ->
    apk s = Some a ->
    get_package a = Ok p ->
    get_app_name a = Ok name ->
    get_androidversion_code a = Ok version_code ->
    get_androidversion_name a = Ok version_name ->
    get_min_sdk_version a = Ok min_sdk ->
    get_target_sdk_version a = Ok target_sdk ->
    get_permissions a = Ok permissions ->
    st_size w src = Ok b ->
    sizes w (obb_files s) zs ->
    sizes w (split_config_files s) ys ->
    built w s (manifest_of p name version_code version_name min_sdk
                 target_sdk permissions (b + Zsum zs + Zsum ys)%Z
                 (obb_files s) (split_config_files s)).

(** Every method of the package but the two of the icon answers. *)
Definition answers (a : APK) : bool :=
  is_ok (get_package a) && is_ok (get_app_name a)
  && is_ok (get_androidversion_code a) && is_ok (get_androidversion_name a)
  && is_ok (get_min_sdk_version a) && is_ok (get_target_sdk_version a)
  && is_ok (get_permissions a).

(** The icon cannot be retrieved: one of the two calls of line 42
    raises. *)
Definition icon_raises (a : APK) : bool :=
  match get_app_icon a with
  | Raise _ => true
  | Ok icon_name => negb (is_ok (get_file a icon_name))
  end.

(** The object after the inner [try]: the icon is set when both calls
    answer, and nothing changes otherwise. *)
Definition with_icon (a : APK) (s : XAPK) : XAPK :=
  match get_app_icon a with
  | Ok icon_name =>
      match get_file a icon_name with
      | Ok bytes => set_icon bytes s
      | Raise _ => s
      end
  | Raise _ => s
  end.

(** The folder holds an expansion file or a split. *)
Definition supplementary (w : World) : bool :=
  match glob w "*.obb", glob w "config.*.apk" ++ glob w "asset.*.apk" with
  | [], [] => false
  | _, _ => true
  end.

(** Every expansion file of the folder carries the token [p]. *)
Definition tokens_match (w : World) (p : string) : bool :=
  forallb (fun f => String.eqb (obb_token f) p) (glob w "*.obb").

(** The object when [make_manifest] has returned [m] and the icon has
    been tried. *)
Definition described (w : World) (a : APK) (m : dict) : XAPK :=
  with_icon a (set_manifest m (set_apk a (resolved w))).

(** ** Concrete folders *)

Module Examples.

(** A file system given by a table of names and sizes; [stat] of a name
    that is not there raises. *)
Fixpoint size_in (table : list (string * Z)) (name : string) : result Z :=
  match table with
  | [] => Raise (mkExc OtherException
                   ("[Errno 2] No such file or directory: '" ++ name ++ "'"))
  | (n, z) :: table' => if String.eqb n name then Ok z else size_in table' name
  end.

Definition folder_of (table : list (string * Z)) (a : result APK) : World :=
  mkWorld "in" true (map fst table) (size_in table) (fun _ => a).

Definition no_icon : Exc := mkExc OtherException "no icon".

(** A package [com.example.app], version 1.0, whose icon cannot be
    found. *)
Definition example_app : APK :=
  mkAPK (Ok "com.example.app") (Ok "Example") (Ok 1%Z) (Ok "1.0")
        (Ok 21%Z) (Ok 33%Z) (Ok ["android.permission.INTERNET"])
        (Raise no_icon) (fun _ => Raise no_icon).

(** The same package with an icon. *)
Definition example_app_icon : APK :=
  mkAPK (Ok "com.example.app") (Ok "Example") (Ok 1%Z) (Ok "1.0")
        (Ok 21%Z) (Ok 33%Z) (Ok ["android.permission.INTERNET"])
        (Ok "res/icon.png") (fun _ => Ok [Byte.x89; Byte.x50]).

(** [base.apk] of 1000 bytes and one expansion file of 2000 bytes. *)
Definition w_obb : World :=
  folder_of [("base.apk", 1000%Z);
             ("main.123.com.example.app.obb", 2000%Z)] (Ok example_app).

(** The same folder, the expansion file named for another package. *)
Definition w_other : World :=
  folder_of [("base.apk", 1000%Z);
             ("main.123.com.example.other.obb", 2000%Z)] (Ok example_app).

(** Only [base.apk]. *)
Definition w_bare : World :=
  folder_of [("base.apk", 1000%Z)] (Ok example_app).

(** Two splits and two expansion files. *)
Definition w_full : World :=
  folder_of [("asset.pack1.apk", 7%Z);
             ("main.123.com.example.app.obb", 2000%Z);
             ("base.apk", 1000%Z);
             ("config.arm64_v8a.apk", 300%Z);
             ("patch.123.com.example.app.obb", 50%Z);
             ("readme.txt", 9%Z)] (Ok example_app_icon).

(** An expansion file whose stem has two segments only. *)
Definition w_short : World :=
  folder_of [("base.apk", 1000%Z); ("main.123.obb", 2000%Z)]
            (Ok example_app).

(** The stores in which [make_manifest] runs for two of the folders,
    and the manifests it returns there. *)
Definition st_obb : Store := inspected w_obb "base.apk" example_app.

Definition st_full : Store := inspected w_full "base.apk" example_app_icon.

Definition m_obb : dict :=
  manifest_of "com.example.app" "Example" 1 "1.0" 21 33
    ["android.permission.INTERNET"] 3000
    ["main.123.com.example.app.obb"] [].

Definition m_full : dict :=
  manifest_of "com.example.app" "Example" 1 "1.0" 21 33
    ["android.permission.INTERNET"] 3357
    ["main.123.com.example.app.obb"; "patch.123.com.example.app.obb"]
    ["config.arm64_v8a.apk"; "asset.pack1.apk"].

Definition m_other : dict :=
  manifest_of "com.example.app" "Example" 1 "1.0" 21 33
    ["android.permission.INTERNET"] 3000
    ["main.123.com.example.other.obb"] [].

End Examples.

Import Examples.
(** ** [XAPK.save]

    The staging directory is a tree of paths relative to [zip_dir]; the
    archive is written at [self.folder / self.name].  Every call to the
    outside may raise, as the oracle of the call says.  It is taken for
    granted that the package name is a relative path without [..], so
    that [joinpath] stays below [zip_dir], and that [resolve] does not
    raise. *)

(** What a staged file holds. *)
Inductive content : Type :=
| Copy (name : string)           (* shutil.copy2 of [folder / name] *)
| Bytes (b : list Byte.byte)     (* iconfile.write(icon) *)
| Json (m : option dict).        (* json.dump(self.manifest, ..., indent=4) *)

Definition tree : Type := list (string * content).

Fixpoint tree_get (path : string) (t : tree) : option content :=
  match t with
  | [] => None
  | (p, c) :: t' => if String.eqb path p then Some c else tree_get path t'
  end.

(** A file written at [path]: it replaces the one that was there. *)
Fixpoint tree_put (path : string) (c : content) (t : tree) : tree :=
  match t with
  | [] => [(path, c)]
  | (p, c') :: t' =>
      if String.eqb path p then (p, c) :: t' else (p, c') :: tree_put path c t'
  end.

(** The file at [zip_path]: not opened by [save]; opened for writing
    and not completed; or holding the files of the staging tree. *)
Inductive Zip : Type :=
| Untouched
| Incomplete
| Complete (entries : tree).

(** The oracles of the calls that [save] makes: [None] when the call
    succeeds, the exception when it raises. *)
Record Sink : Type := mkSink {
  mkdtemp_raises : option Exc;                    (* tempfile.mkdtemp() *)
  copy2_raises : string -> string -> option Exc;  (* source name, path *)
  makedirs_raises : string -> option Exc;         (* os.makedirs(dir) *)
  write_raises : string -> option Exc;            (* open(path) and write *)
  zip_raises : string -> option Exc;              (* ZipFile(zip_path) *)
  rmtree_raises : option Exc                      (* shutil.rmtree(zip_dir) *)
}.

(** What [save] acts on: the attribute [self.name], the staging
    directory (if there is one), the archive and the standard output. *)
Record SaveState : Type := mkSaveState {
  self_name : option string;
  zip_dir : option tree;
  zip_file : Zip;
  stdout : list string
}.

Definition IO (A : Type) : Type := SaveState -> result A * SaveState.

Definition io_ret {A : Type} (a : A) : IO A := fun d => (Ok a, d).

Definition io_bind {A B : Type} (m : IO A) (k : A -> IO B) : IO B :=
  fun d =>
    match m d with
    | (Ok a, d') => k a d'
    | (Raise e, d') => (Raise e, d')
    end.

Definition io_raise {A : Type} (e : Exc) : IO A := fun d => (Raise e, d).

Definition io_lift {A : Type} (r : result A) : IO A := fun d => (r, d).

(** [try: m  except Exception as e: handler e]. *)
Definition io_try {A : Type} (m : IO A) (handler : Exc -> IO A) : IO A :=
  fun d =>
    match m d with
    | (Ok a, d') => (Ok a, d')
    | (Raise e, d') => handler e d'
    end.

(** [try: body  finally: fin]: [fin] always runs; when it raises, its
    exception is the one that goes on. *)
Definition io_finally {A : Type} (body : IO A) (fin : IO unit) : IO A :=
  fun d =>
    match body d with
    | (r, d1) =>
        match fin d1 with
        | (Ok _, d2) => (r, d2)
        | (Raise e, d2) => (Raise e, d2)
        end
    end.

Declare Scope io_scope.
Delimit Scope io_scope with io.
Notation "x <- m ;; k" := (io_bind m (fun x => k))
  (at level 61, m at next level, right associativity) : io_scope.
Notation "m ;; k" := (io_bind m (fun _ => k))
  (at level 61, right associativity) : io_scope.

Definition io_print (line : string) : IO unit :=
  fun d => (Ok tt, mkSaveState (self_name d) (zip_dir d) (zip_file d)
                               (stdout d ++ [line])).

Definition set_self_name (n : string) : IO unit :=
  fun d => (Ok tt, mkSaveState (Some n) (zip_dir d) (zip_file d) (stdout d)).

Definition set_zip_dir (t : option tree) : IO unit :=
  fun d => (Ok tt, mkSaveState (self_name d) t (zip_file d) (stdout d)).

Definition set_zip_file (z : Zip) : IO unit :=
  fun d => (Ok tt, mkSaveState (self_name d) (zip_dir d) z (stdout d)).

(** A call that raises or returns nothing. *)
Definition io_call (oracle : option Exc) : IO unit :=
  match oracle with
  | Some e => io_raise e
  | None => io_ret tt
  end.

(** A file created below [zip_dir]. *)
Definition stage (path : string) (c : content) : IO unit :=
  fun d =>
    match zip_dir d with
    | Some t => set_zip_dir (Some (tree_put path c t)) d
    | None =>
        (Raise (mkExc FileNotFoundError
                  ("[Errno 2] No such file or directory: '" ++ path ++ "'")),
         d)
    end.

(** [shutil.copy2(folder / name, zip_dir / path)] *)
Definition copy2 (k : Sink) (name path : string) : IO unit :=
  (io_call (copy2_raises k name path) ;; stage path (Copy name))%io.

(** [with open(zip_dir / path, mode) as f: f.write(c)] *)
Definition write_file (k : Sink) (path : string) (c : content) : IO unit :=
  (io_call (write_raises k path) ;; stage path c)%io.

(** [self.apk.method()] *)
Definition ask {A : Type} (x : XAPK) (method : string)
    (f : APK -> result A) : IO A :=
  match apk x with
  | None => io_raise (AttributeError method)
  | Some a => io_lift (f a)
  end.

Fixpoint io_for_each {A : Type} (l : list A) (body : A -> IO unit) : IO unit :=
  match l with
  | [] => io_ret tt
  | x :: l' => (body x ;; io_for_each l' body)%io
  end.

Definition saving_error (e : Exc) : Exc :=
  mkExc RuntimeError ("Saving: " ++ exc_str e).

Local Open Scope io_scope.

(** Lines 117 to 122. *)
Definition save_apk (k : Sink) (x : XAPK) : IO unit :=
  io_print "Copying APK to temp directory..." ;;
  p <- ask x "get_package" get_package ;;
  let apk_name := (p ++ ".apk")%string in
  match apk_src x with
  | None => io_raise (AttributeError "resolve")
  | Some src =>
      copy2 k src apk_name ;;
      io_print "APK: OK"
  end.

(** Lines 125 to 131, the body of the loop over [self.obb_files]. *)
Definition save_obb (k : Sink) (x : XAPK) (obb_file : string) : IO unit :=
  io_print ("Copying " ++ obb_file ++ " to temp directory...") ;;
  p <- ask x "get_package" get_package ;;
  let obb_name := ("Android/obb/" ++ p ++ "/" ++ obb_file)%string in
  io_call (makedirs_raises k ("Android/obb/" ++ p)) ;;
  copy2 k obb_file obb_name ;;
  io_print (obb_file ++ ": OK").

(** Lines 134 to 136, the body of the loop over
    [self.split_config_files]. *)
Definition save_split (k : Sink) (split_config_file : string) : IO unit :=
  io_print ("Copying " ++ split_config_file ++ " to temp directory...") ;;
  copy2 k split_config_file split_config_file ;;
  io_print (split_config_file ++ ": OK").

(** Lines 138 to 144: [if self.icon] holds for bytes that are not
    empty. *)
Definition save_icon (k : Sink) (x : XAPK) : IO unit :=
  match icon x with
  | Some (b :: bs) =>
      io_print "Creating icon in temp directory..." ;;
      write_file k "icon.png" (Bytes (b :: bs)) ;;
      io_print "Icon: OK"
  | _ => io_ret tt
  end.

(** Lines 146 to 150. *)
Definition save_manifest (k : Sink) (x : XAPK) : IO unit :=
  io_print "Creating manifest in temp directory..." ;;
  write_file k "manifest.json" (Json (manifest x)) ;;
  io_print "Manifest: OK".

(** Lines 152 to 158: the archive takes every file of the tree, under
    its path relative to [zip_dir]. *)
Definition save_zip (k : Sink) (zip_path : string) : IO unit :=
  io_print "Creating XAPK archive..." ;;
  match zip_raises k zip_path with
  | Some e => set_zip_file Incomplete ;; io_raise e
  | None =>
      (fun d =>
         match zip_dir d with
         | Some t => set_zip_file (Complete t) d
         | None => set_zip_file (Complete []) d
         end) ;;
      io_print "XAPK: OK"
  end.

(** Lines 160 to 162, the [finally] block. *)
Definition cleanup (k : Sink) : IO unit :=
  io_print "Cleaning up temp directory..." ;;
  io_call (rmtree_raises k) ;;
  set_zip_dir None ;;
  io_print "Cleanup: OK".

(** Lines 117 to 158, the body of the inner [try]. *)
Definition stage_and_zip (k : Sink) (x : XAPK) (zip_path : string) : IO unit :=
  save_apk k x ;;
  io_for_each (obb_files x) (save_obb k x) ;;
  io_for_each (split_config_files x) (save_split k) ;;
  save_icon k x ;;
  save_manifest k x ;;
  save_zip k zip_path.

Definition save_body (k : Sink) (x : XAPK) : IO unit :=
  match apk_src x with
  | None => io_raise (mkExc ValueError "APK file source is not initialized.")
  | Some _ => io_ret tt
  end ;;
  p <- ask x "get_package" get_package ;;
  v <- ask x "get_androidversion_name" get_androidversion_name ;;
  let name := (p ++ "_" ++ v ++ ".xapk")%string in
  set_self_name name ;;
  let zip_path := name in
  io_call (mkdtemp_raises k) ;;
  set_zip_dir (Some []) ;;
  io_finally (stage_and_zip k x zip_path) (cleanup k).

Definition save (k : Sink) (x : XAPK) : IO unit :=
  io_try (save_body k x) (fun e => io_raise (saving_error e)).

Local Close Scope io_scope.

(** ** [main] *)

(** The lines that a run of [initialize] has printed. *)
Definition printed (evs : list Event) : list string :=
  flat_map (fun ev => match ev with Printed line => [line] | _ => [] end) evs.

(** The state in which [save] starts, after [lines] have been
    printed. *)
Definition at_start (lines : list string) : SaveState :=
  mkSaveState None None Untouched lines.

(** The [except] clauses of [main], in their order; each prints one
    line and calls [exit(1)]. *)
Definition handle (e : Exc) (d : SaveState) : nat * SaveState :=
  match exc_class e with
  | FileNotFoundError | ValueError | RuntimeError =>
      (1, snd (io_print ("Error: " ++ exc_str e) d))
  | OtherException =>
      (1, snd (io_print ("An unexpected error occurred: " ++ exc_str e) d))
  end.

(** [main(args)]: the exit status of the process and what it has done.
    [host] gives the folder that a path names. *)
Definition main (host : string -> World) (k : Sink) (args : list string)
  : nat * SaveState :=
  match args with
  | [folder] =>
      match run_init (host folder) with
      | (Raise e, st) => handle e (at_start (printed (out st)))
      | (Ok _, st) =>
          match save k (self st) (at_start (printed (out st))) with
          | (Ok _, d) => (0, d)
          | (Raise e, d) => handle e d
          end
      end
  | _ =>
      (0, at_start ["Usage: python3 xapktool.py <apk_obb_directory>"])
  end.

(** ** Notions used in the statements on [save] *)

(** The staging tree when every step of [save] has succeeded, for the
    package name [p] and the base package [src]. *)
Definition staged (p src : string) (x : XAPK) : tree :=
  let t := tree_put (p ++ ".apk") (Copy src) [] in
  let t := fold_left
             (fun t f => tree_put ("Android/obb/" ++ p ++ "/" ++ f) (Copy f) t)
             (obb_files x) t in
  let t := fold_left (fun t f => tree_put f (Copy f) t)
                     (split_config_files x) t in
  let t := match icon x with
           | Some (b :: bs) => tree_put "icon.png" (Bytes (b :: bs)) t
           | _ => t
           end in
  tree_put "manifest.json" (Json (manifest x)) t.

(** Every call that [save] makes to the outside succeeds. *)
Definition sink_ok : Sink :=
  mkSink None (fun _ _ => None) (fun _ => None) (fun _ => None)
         (fun _ => None) None.

(** A sink in which one copy raises. *)
Definition sink_copy_fails (name : string) : Sink :=
  mkSink None
         (fun n _ => if String.eqb n name
                     then Some (mkExc OtherException "copy failed") else None)
         (fun _ => None) (fun _ => None) (fun _ => None) None.

(** A sink in which a copy and the removal of the directory raise. *)
Definition sink_copy_and_rmtree_fail (name : string) : Sink :=
  mkSink None
         (fun n _ => if String.eqb n name
                     then Some (mkExc OtherException "copy failed") else None)
         (fun _ => None) (fun _ => None) (fun _ => None)
         (Some (mkExc OtherException "rmtree failed")).

(** The four characters that end a name of five characters or more. *)
Definition extension (name : string) : string :=
  String.substring (String.length name - 4) 4 name.

(** [stages m f]: [m] touches nothing but the staging directory and
    the output; it leaves a directory that exists in existence, and
    when it returns, the tree [t] has become [f t]. *)
Definition stages (m : IO unit) (f : tree -> tree) : Prop :=
  forall d r d',
    m d = (r, d') ->
    self_name d' = self_name d
    /\ zip_file d' = zip_file d
    /\ forall t,
         zip_dir d = Some t ->
         (exists t', zip_dir d' = Some t')
         /\ (r = Ok tt -> zip_dir d' = Some (f t)).

(** The state in which the inner [try] of [save] starts. *)
Definition staging_start (name : string) (d : SaveState) : SaveState :=
  mkSaveState (Some name) (Some []) (zip_file d) (stdout d).

(** No call of [save] to the outside raises. *)
Definition quiet (k : Sink) : Prop :=
  mkdtemp_raises k = None
  /\ (forall n p, copy2_raises k n p = None)
  /\ (forall dir, makedirs_raises k dir = None)
  /\ (forall p, write_raises k p = None)
  /\ (forall p, zip_raises k p = None)
  /\ rmtree_raises k = None.

(** [finishes k zip_path m t final]: started on the staging tree [t],
    [m] keeps [self.name] and the staging directory, and leaves the
    archive alone (having raised), or incomplete (the archiver having
    raised), or complete with the tree [final] (having returned). *)
Definition finishes (k : Sink) (zip_path : string) (m : IO unit)
    (t final : tree) : Prop :=
  forall d r d',
    zip_dir d = Some t ->
    m d = (r, d') ->
    self_name d' = self_name d
    /\ (exists t', zip_dir d' = Some t')
    /\ ((zip_file d' = zip_file d /\ r <> Ok tt)
        \/ (zip_file d' = Incomplete /\ r <> Ok tt
            /\ zip_raises k zip_path <> None)
        \/ (zip_file d' = Complete final /\ r = Ok tt)).

(** [returns m]: on a staging directory that exists, [m] returns. *)
Definition returns (m : IO unit) : Prop :=
  forall d t, zip_dir d = Some t -> exists d', m d = (Ok tt, d').

(** The path of an expansion file in the archive. *)
Definition obb_path (p obb : string) : string :=
  ("Android/obb/" ++ p ++ "/" ++ obb)%string.

(** The ['file'] of an entry of [split_apks] or of [expansions]. *)
Definition entry_file (v : value) : list string :=
  match v with
  | VDict d =>
      match dict_get "file" d with
      | Some (VStr f) => [f]
      | _ => []
      end
  | _ => []
  end.

(** The files that a manifest lists: those of [split_apks], then those
    of [expansions]. *)
Definition listed_files (m : dict) : list string :=
  match dict_get "split_apks" m with
  | Some (VList l) => flat_map entry_file l
  | _ => []
  end
  ++ match dict_get "expansions" m with
     | Some (VList l) => flat_map entry_file l
     | _ => []
     end.

(** A package named like a split, with the split of that name. *)
Definition clash_app : APK :=
  mkAPK (Ok "config.pack") (Ok "Clash") (Ok 1%Z) (Ok "1.0")
        (Ok 21%Z) (Ok 33%Z) (Ok []) (Raise (mkExc OtherException "no icon"))
        (fun _ => Raise (mkExc OtherException "no icon")).

Definition w_clash : World :=
  mkWorld "in" true ["base.apk"; "config.pack.apk"]
          (fun _ => Ok 10%Z) (fun _ => Ok clash_app).

(** The objects that the constructor returns for two of the folders. *)
Definition x_full : XAPK := described w_full example_app_icon m_full.

Definition x_clash : XAPK :=
  described w_clash clash_app
    (manifest_of "config.pack" "Clash" 1 "1.0" 21 33 [] 20 []
       ["config.pack.apk"]).

(** The folder that every path names, for a run of [main]. *)
Definition host_full (folder : string) : World := w_full.

Definition host_other (folder : string) : World := w_other.

(** * Properties *)

(** ** Runs on concrete inputs *)

Example split_obb_stem :
  PyStr.split "." "main.123.com.example.app"
  = ["main"; "123"; "com"; "example"; "app"].
Proof. reflexivity. Qed.

Example split_empty : PyStr.split "." "" = [""].
Proof. reflexivity. Qed.

Example stem_obb :
  Pathlib.stem "main.123.com.example.app.obb" = "main.123.com.example.app".
Proof. reflexivity. Qed.

Example stem_hidden : Pathlib.stem ".obb" = ".obb".
Proof. reflexivity. Qed.

Example fnmatch_examples :
  Pathlib.fnmatch "config.*.apk" "config.arm64_v8a.apk" = true
  /\ Pathlib.fnmatch "config.*.apk" "config.apk" = false
  /\ Pathlib.fnmatch "*.obb" "main.1.a.obb" = true
  /\ Pathlib.fnmatch "base.apk" "base.apk" = true
  /\ Pathlib.fnmatch "base.apk" "xbase.apk" = false.
Proof. repeat split; reflexivity. Qed.

Example run_w_bare :
  run_init w_bare
  = (Raise (mkExc RuntimeError
       "Initialization: No OBB and split files found in the specified directory."),
     mkStore (mkXAPK (Some "base.apk") [] [] None None None) []).
Proof. reflexivity. Qed.

Example run_w_full_files :
  match XAPK_new w_full with
  | Ok x => obb_files x = ["main.123.com.example.app.obb";
                           "patch.123.com.example.app.obb"]
            /\ split_config_files x = ["config.arm64_v8a.apk"; "asset.pack1.apk"]
            /\ option_map (dict_get "total_size") (manifest x)
               = Some (Some (VInt 3357))
  | Raise _ => False
  end.
Proof. vm_compute. repeat split; reflexivity. Qed.

(** ** The monad *)

Lemma logged_logged st a b : logged (logged st a) b = logged st (a ++ b).
Proof. unfold logged; simpl. now rewrite app_assoc. Qed.

Lemma self_logged st evs : self (logged st evs) = self st.
Proof. reflexivity. Qed.

Lemma bind_inv_ok {A B : Type} (m : M A) (k : A -> M B) st b st2 :
  bind m k st = (Ok b, st2) ->
  exists a st1, m st = (Ok a, st1) /\ k a st1 = (Ok b, st2).
Proof.
  unfold bind. destruct (m st) as [[a | e] st1]; intros H.
  - now exists a, st1.
  - discriminate.
Qed.

Lemma bind_ok {A B : Type} (m : M A) (k : A -> M B) st a st1 :
  m st = (Ok a, st1) -> bind m k st = k a st1.
Proof. unfold bind. now intros ->. Qed.

Lemma keeps_ret {A : Type} (a : A) : keeps_self (ret a).
Proof. intros st r st' H. now inversion H. Qed.

Lemma keeps_raise {A : Type} (e : Exc) : keeps_self (@raise A e).
Proof. intros st r st' H. now inversion H. Qed.

Lemma keeps_lift {A : Type} (x : result A) : keeps_self (lift x).
Proof. intros st r st' H. now inversion H. Qed.

Lemma keeps_gets {A : Type} (f : XAPK -> A) : keeps_self (gets f).
Proof. intros st r st' H. now inversion H. Qed.

Lemma keeps_emit ev : keeps_self (emit ev).
Proof. intros st r st' H. now inversion H. Qed.

Lemma keeps_bind {A B : Type} (m : M A) (k : A -> M B) :
  keeps_self m -> (forall a, keeps_self (k a)) -> keeps_self (bind m k).
Proof.
  intros Hm Hk st r st'. unfold bind.
  destruct (m st) as [[a | e] st1] eqn:E; intros H.
  - rewrite (Hk a _ _ _ H). exact (Hm _ _ _ E).
  - inversion H; subst. exact (Hm _ _ _ E).
Qed.

Lemma keeps_try_except {A : Type} (m : M A) (h : Exc -> M A) :
  keeps_self m -> (forall e, keeps_self (h e)) -> keeps_self (try_except m h).
Proof.
  intros Hm Hh st r st'. unfold try_except.
  destruct (m st) as [[a | e] st1] eqn:E; intros H.
  - inversion H; subst. exact (Hm _ _ _ E).
  - rewrite (Hh e _ _ _ H). exact (Hm _ _ _ E).
Qed.

Lemma keeps_for_fold {A S : Type} (body : S -> A -> M S) :
  (forall acc x, keeps_self (body acc x)) ->
  forall l acc, keeps_self (for_fold l acc body).
Proof.
  intros Hb l. induction l as [| x l IH]; intros acc; simpl.
  - apply keeps_ret.
  - apply keeps_bind; [apply Hb | intros a; apply IH].
Qed.

Lemma keeps_stat w name : keeps_self (stat w name).
Proof.
  unfold stat. apply keeps_bind; [apply keeps_emit | intros _; apply keeps_lift].
Qed.

Lemma keeps_query {A : Type} method (f : APK -> result A) :
  keeps_self (query method f).
Proof.
  unfold query. apply keeps_bind; [apply keeps_gets |].
  intros [a |]; [| apply keeps_raise].
  apply keeps_bind; [apply keeps_emit | intros _; apply keeps_lift].
Qed.

Create HintDb keeps.
#[local] Hint Resolve keeps_ret keeps_raise keeps_lift keeps_gets keeps_emit
  keeps_stat keeps_query : keeps.

Ltac keeps_tac :=
  repeat first
    [ progress intros
    | apply keeps_bind
    | apply keeps_try_except
    | apply keeps_for_fold
    | solve [auto with keeps]
    | match goal with
      | |- keeps_self (let '(_, _) := ?p in _) => destruct p
      | |- keeps_self (match ?x with _ => _ end) => destruct x
      end ].

Lemma stat_run w name st :
  stat w name st = (st_size w name, logged st [Stat name]).
Proof. reflexivity. Qed.

Lemma query_run {A : Type} method (f : APK -> result A) st a :
  apk (self st) = Some a ->
  query method f st = (f a, logged st [Query method]).
Proof. unfold query, bind, gets. now intros ->. Qed.

Lemma query_inv {A : Type} method (f : APK -> result A) st x st' :
  query method f st = (Ok x, st') ->
  exists a, apk (self st) = Some a /\ f a = Ok x /\ self st' = self st.
Proof.
  intros H. pose proof (keeps_query method f _ _ _ H) as K.
  unfold query, bind, gets in H. destruct (apk (self st)) as [a |].
  - exists a. simpl in H. unfold lift in H. inversion H. auto.
  - discriminate.
Qed.

Lemma stat_inv w name st z st' :
  stat w name st = (Ok z, st') -> st_size w name = Ok z /\ self st' = self st.
Proof. rewrite stat_run. intros H. inversion H. auto. Qed.

Lemma for_each_modify (f : string -> XAPK -> XAPK) l st :
  for_each l (fun x => modify (f x)) st
  = (Ok tt, mkStore (fold_left (fun s x => f x s) l (self st)) (out st)).
Proof.
  revert st. induction l as [| x l IH]; intros [s o]; simpl.
  - reflexivity.
  - unfold bind, modify at 1. simpl. now rewrite IH.
Qed.

Lemma keeps_obb_step w acc f : keeps_self (obb_step w acc f).
Proof. unfold obb_step. keeps_tac. Qed.

Lemma keeps_split_step w acc f : keeps_self (split_step w acc f).
Proof. unfold split_step. keeps_tac. Qed.

Lemma keeps_make_manifest_body w : keeps_self (make_manifest_body w).
Proof.
  unfold make_manifest_body.
  repeat first
    [ apply keeps_obb_step | apply keeps_split_step | progress keeps_tac ].
Qed.

Lemma keeps_make_manifest w : keeps_self (make_manifest w).
Proof.
  unfold make_manifest. apply keeps_try_except.
  - apply keeps_make_manifest_body.
  - intros e. apply keeps_raise.
Qed.

(** ** The loops of [make_manifest] *)

Section ManifestLoops.

Variable w : World.
Variable a : APK.
Variable p : string.
Hypothesis package_ok : get_package a = Ok p.

Lemma obb_step_run st t info f :
  apk (self st) = Some a ->
  obb_step w (t, info) f st
  = match st_size w f with
    | Ok z =>
        (Ok ((t + z)%Z, info ++ [obb_entry p p f]),
         logged st [Stat f; Query "get_package"; Query "get_package"])
    | Raise e => (Raise e, logged st [Stat f])
    end.
Proof.
  intros Ha. unfold obb_step.
  unfold bind at 1. rewrite stat_run.
  destruct (st_size w f) as [z | e]; [| reflexivity].
  unfold bind at 1. rewrite (query_run _ _ _ a), package_ok by exact Ha.
  unfold bind at 1. rewrite (query_run _ _ _ a), package_ok by exact Ha.
  unfold ret. now rewrite !logged_logged.
Qed.

Lemma obb_loop_inv obbs : forall st t info r st',
  apk (self st) = Some a ->
  for_fold obbs (t, info) (obb_step w) st = (Ok r, st') ->
  exists zs, sizes w obbs zs
             /\ r = ((t + Zsum zs)%Z, info ++ map (obb_entry p p) obbs).
Proof.
  induction obbs as [| f obbs IH]; intros st t info r st' Ha H;
    cbn [for_fold] in H.
  - inversion H; subst. exists []. split; [constructor |].
    simpl. now rewrite Z.add_0_r, app_nil_r.
  - unfold bind in H. rewrite obb_step_run in H by exact Ha.
    destruct (st_size w f) as [z | e] eqn:Ez; [| discriminate].
    apply IH in H; [| exact Ha].
    destruct H as (zs & Hzs & ->). exists (z :: zs). split.
    + now constructor.
    + simpl. now rewrite <- app_assoc, Z.add_assoc.
Qed.

Lemma obb_loop_ok obbs : forall zs st t info,
  apk (self st) = Some a ->
  sizes w obbs zs ->
  exists st',
    for_fold obbs (t, info) (obb_step w) st
    = (Ok ((t + Zsum zs)%Z, info ++ map (obb_entry p p) obbs), st')
    /\ self st' = self st.
Proof.
  induction obbs as [| f obbs IH]; intros zs st t info Ha Hz;
    inversion Hz as [| ? z ? zs' Hf Hrest]; subst; cbn [for_fold].
  - exists st. now rewrite Z.add_0_r, app_nil_r.
  - unfold bind. rewrite obb_step_run, Hf by exact Ha.
    destruct (IH zs' (logged st [Stat f; Query "get_package";
                                 Query "get_package"])
                 (t + z)%Z (info ++ [obb_entry p p f]) Ha Hrest)
      as (st' & E & Hs).
    exists st'. rewrite E. unfold Zsum. simpl.
    now rewrite <- app_assoc, Z.add_assoc.
Qed.

End ManifestLoops.

Lemma split_step_run w st t apks configs f :
  split_step w (t, apks, configs) f st
  = match st_size w f with
    | Ok z =>
        (Ok ((t + z)%Z, apks ++ [split_entry f (Pathlib.stem f)],
             configs ++ [VStr (Pathlib.stem f)]),
         logged st [Stat f])
    | Raise e => (Raise e, logged st [Stat f])
    end.
Proof.
  unfold split_step, bind. rewrite stat_run.
  now destruct (st_size w f).
Qed.

Lemma split_loop_inv w splits : forall st t apks configs r st',
  for_fold splits (t, apks, configs) (split_step w) st = (Ok r, st') ->
  exists zs,
    sizes w splits zs
    /\ r = ((t + Zsum zs)%Z,
            apks ++ map (fun f => split_entry f (Pathlib.stem f)) splits,
            configs ++ map (fun f => VStr (Pathlib.stem f)) splits).
Proof.
  induction splits as [| f splits IH]; intros st t apks configs r st' H;
    cbn [for_fold] in H.
  - inversion H; subst. exists []. split; [constructor |].
    simpl. now rewrite Z.add_0_r, !app_nil_r.
  - unfold bind in H. rewrite split_step_run in H.
    destruct (st_size w f) as [z | e] eqn:Ez; [| discriminate].
    apply IH in H. destruct H as (zs & Hzs & ->). exists (z :: zs). split.
    + now constructor.
    + simpl. now rewrite <- !app_assoc, Z.add_assoc.
Qed.

Lemma split_loop_ok w splits : forall zs st t apks configs,
  sizes w splits zs ->
  exists st',
    for_fold splits (t, apks, configs) (split_step w) st
    = (Ok ((t + Zsum zs)%Z,
           apks ++ map (fun f => split_entry f (Pathlib.stem f)) splits,
           configs ++ map (fun f => VStr (Pathlib.stem f)) splits), st')
    /\ self st' = self st.
Proof.
  induction splits as [| f splits IH]; intros zs st t apks configs Hz;
    inversion Hz as [| ? z ? zs' Hf Hrest]; subst; cbn [for_fold].
  - exists st. now rewrite Z.add_0_r, !app_nil_r.
  - unfold bind. rewrite split_step_run, Hf.
    destruct (IH zs' (logged st [Stat f]) (t + z)%Z
                 (apks ++ [split_entry f (Pathlib.stem f)])
                 (configs ++ [VStr (Pathlib.stem f)]) Hrest)
      as (st' & E & Hs).
    exists st'. rewrite E. unfold Zsum. simpl.
    now rewrite <- !app_assoc, Z.add_assoc.
Qed.

(** ** [make_manifest] in closed form *)

Tactic Notation "inv_bind" hyp(H) "as" ident(x) ident(st) ident(H1) :=
  apply bind_inv_ok in H; destruct H as (x & st & H1 & H).

Ltac inv_query H q Hq :=
  let st := fresh "st" in
  let a := fresh "a" in
  let Q := fresh "Q" in
  let Ha := fresh "Ha" in
  let Hs := fresh "Hs" in
  apply bind_inv_ok in H; destruct H as (q & st & Q & H);
  apply query_inv in Q; destruct Q as (a & Ha & Hq & Hs).

Lemma make_manifest_body_inv w st m st' :
  make_manifest_body w st = (Ok m, st') -> built w (self st) m.
Proof.
  intros H. unfold make_manifest_body in H.
  inv_bind H as src0 s0 G. inversion G; subst; clear G.
  inv_bind H as b s1 Hb.
  destruct (apk_src (self s0)) as [src |] eqn:Esrc; [| discriminate].
  apply stat_inv in Hb. destruct Hb as (Hb & S1).
  inv_bind H as obbs s2 G. inversion G; subst; clear G.
  inv_bind H as r1 s3 Hobb. destruct r1 as [t1 obb_info].
  pose proof (keeps_for_fold _ (keeps_obb_step w) _ _ _ _ _ Hobb) as S2.
  inv_bind H as p s4 Q. apply query_inv in Q. destruct Q as (a & Ha & Hp & S3).
  inv_bind H as splits s5 G. inversion G; subst; clear G.
  inv_bind H as r2 s6 Hsplit.
  destruct r2 as [[t2 split_apks_info] split_configs_info].
  pose proof (keeps_for_fold _ (keeps_split_step w) _ _ _ _ _ Hsplit) as S4.
  apply (obb_loop_inv w a p Hp) in Hobb; [| congruence].
  destruct Hobb as (zs & Hzs & Eobb). inversion Eobb; subst; clear Eobb.
  apply split_loop_inv in Hsplit.
  destruct Hsplit as (ys & Hys & Esplit). inversion Esplit; subst; clear Esplit.
  assert (E1 : obb_files (self s2) = obb_files (self s0)) by congruence.
  assert (E2 : split_config_files (self s5) = split_config_files (self s0))
    by congruence.
  rewrite E1, E2 in *. clear E1 E2.
  inv_query H package_name Q1. inv_query H name Q2.
  inv_query H version_code Q3. inv_query H version_name Q4.
  inv_query H min_sdk_version Q5. inv_query H target_sdk_version Q6.
  inv_query H permissions Q7.
  repeat match goal with
         | K : apk _ = Some ?x |- _ =>
             tryif constr_eq x a then fail
             else (assert (x = a) by congruence; subst x; clear K)
         end.
  assert (package_name = p) by congruence. subst package_name.
  inversion H; subst; clear H.
  match goal with
  | |- built _ _ ?d =>
      replace d with
        (manifest_of p name version_code version_name min_sdk_version
           target_sdk_version permissions (b + Zsum zs + Zsum ys)%Z
           (obb_files (self s0)) (split_config_files (self s0)))
  end.
  - eapply built_intro; eauto; congruence.
  - unfold manifest_of.
    destruct (obb_files (self s0)), (split_config_files (self s0));
      reflexivity.
Qed.

Lemma make_manifest_inv w st m st' :
  make_manifest w st = (Ok m, st') -> built w (self st) m.
Proof.
  unfold make_manifest, try_except.
  destruct (make_manifest_body w st) as [[m' | e] st1] eqn:E; intros H.
  - inversion H; subst. exact (make_manifest_body_inv _ _ _ _ E).
  - discriminate.
Qed.

Lemma make_manifest_body_ok w st m :
  built w (self st) m ->
  exists st', make_manifest_body w st = (Ok m, st') /\ self st' = self st.
Proof.
  intros H. destruct H as [src a p name version_code version_name min_sdk
    target_sdk permissions b zs ys Hsrc Ha Hp Hn Hvc Hvn Hmin Htg Hperm
    Hb Hzs Hys].
  set (s1 := logged st [Stat src]).
  destruct (obb_loop_ok w a p Hp (obb_files (self st)) zs s1 b [] Ha Hzs)
    as (s2 & E2 & S2).
  set (s3 := logged s2 [Query "get_package"]).
  destruct (split_loop_ok w (split_config_files (self st)) ys s3
              (b + Zsum zs)%Z [split_entry (p ++ ".apk") "base"] [] Hys)
    as (s4 & E4 & S4).
  assert (A2 : apk (self s2) = Some a) by (rewrite S2; exact Ha).
  assert (A4 : apk (self s4) = Some a) by (rewrite S4; exact A2).
  eexists. split.
  - unfold make_manifest_body.
    rewrite (bind_ok _ _ st (apk_src (self st)) st) by reflexivity.
    rewrite Hsrc.
    rewrite (bind_ok _ _ st b s1) by (rewrite stat_run, Hb; reflexivity).
    rewrite (bind_ok _ _ s1 (obb_files (self st)) s1) by reflexivity.
    rewrite (bind_ok _ _ _ _ _ E2).
    rewrite (bind_ok _ _ s2 p s3)
      by (rewrite (query_run _ _ _ a A2), Hp; reflexivity).
    rewrite (bind_ok _ _ s3 (split_config_files (self st)) s3)
      by (unfold gets; subst s3; rewrite self_logged, S2; reflexivity).
    rewrite (bind_ok _ _ _ _ _ E4).
    erewrite bind_ok
      by (rewrite (query_run _ _ _ a), Hp by exact A4; reflexivity).
    erewrite bind_ok
      by (rewrite (query_run _ _ _ a), Hn by exact A4; reflexivity).
    erewrite bind_ok
      by (rewrite (query_run _ _ _ a), Hvc by exact A4; reflexivity).
    erewrite bind_ok
      by (rewrite (query_run _ _ _ a), Hvn by exact A4; reflexivity).
    erewrite bind_ok
      by (rewrite (query_run _ _ _ a), Hmin by exact A4; reflexivity).
    erewrite bind_ok
      by (rewrite (query_run _ _ _ a), Htg by exact A4; reflexivity).
    erewrite bind_ok
      by (rewrite (query_run _ _ _ a), Hperm by exact A4; reflexivity).
    unfold ret. f_equal. f_equal. unfold manifest_of.
    destruct (obb_files (self st)), (split_config_files (self st));
      reflexivity.
  - rewrite !self_logged, S4. subst s3. now rewrite self_logged, S2.
Qed.

Lemma make_manifest_ok w st m :
  built w (self st) m ->
  exists st', make_manifest w st = (Ok m, st') /\ self st' = self st.
Proof.
  intros H. destruct (make_manifest_body_ok w st m H) as (st' & E & S).
  exists st'. unfold make_manifest, try_except. now rewrite E.
Qed.

(** [make_manifest] returns a dict exactly when the folder and the
    package answer all it asks, and then the dict is the closed form. *)
Lemma make_manifest_iff w st m :
  (exists st', make_manifest w st = (Ok m, st')) <-> built w (self st) m.
Proof.
  split.
  - intros (st' & H). exact (make_manifest_inv _ _ _ _ H).
  - intros H. destruct (make_manifest_ok w st m H) as (st' & E & _).
    now exists st'.
Qed.

(** ** Keys of the manifest *)

Section ManifestKeys.

Variables (p name : string) (vc : Z) (vn : string) (mn tg : Z)
          (perms : list string) (total : Z) (obbs splits : list string).

Lemma manifest_total_size : dict_get "total_size"
    (manifest_of p name vc vn mn tg perms total obbs splits)
  = Some (VInt total).
Proof. unfold manifest_of. now destruct obbs, splits. Qed.

Lemma manifest_package_name : dict_get "package_name"
    (manifest_of p name vc vn mn tg perms total obbs splits)
  = Some (VStr p).
Proof. unfold manifest_of. now destruct obbs, splits. Qed.

Lemma manifest_split_apks :
  dict_get "split_apks"
    (manifest_of p name vc vn mn tg perms total obbs splits)
  = Some (VList (split_entry (p ++ ".apk") "base"
                 :: map (fun f => split_entry f (Pathlib.stem f)) splits)).
Proof. unfold manifest_of. now destruct obbs, splits. Qed.

Lemma manifest_split_configs :
  dict_get "split_configs"
    (manifest_of p name vc vn mn tg perms total obbs splits)
  = match splits with
    | [] => None
    | _ :: _ => Some (VList (map (fun f => VStr (Pathlib.stem f)) splits))
    end.
Proof. unfold manifest_of. now destruct obbs, splits. Qed.

Lemma manifest_expansions :
  dict_get "expansions"
    (manifest_of p name vc vn mn tg perms total obbs splits)
  = match obbs with
    | [] => None
    | _ :: _ => Some (VList (map (obb_entry p p) obbs))
    end.
Proof. unfold manifest_of. now destruct obbs, splits. Qed.

End ManifestKeys.

(** ** Names and patterns *)

Lemma fnmatch_nil s : Pathlib.fnmatch "" s = true -> s = "".
Proof. now destruct s. Qed.

Lemma fnmatch_char c pat s :
  Ascii.eqb c "*" = false ->
  Pathlib.fnmatch (String c pat) s = true ->
  exists s', s = String c s' /\ Pathlib.fnmatch pat s' = true.
Proof.
  intros Hc. cbn [Pathlib.fnmatch]. rewrite Hc.
  destruct s as [| d s']; [discriminate |].
  intros H. apply andb_prop in H. destruct H as (Hd & Hs).
  apply Ascii.eqb_eq in Hd. subst d. now exists s'.
Qed.

Lemma fnmatch_star pat s :
  Pathlib.fnmatch (String "*" pat) s = true ->
  exists pre post, s = (pre ++ post)%string /\ Pathlib.fnmatch pat post = true.
Proof.
  cbn [Pathlib.fnmatch]. rewrite Ascii.eqb_refl.
  induction s as [| d s' IH]; intros H; apply orb_prop in H;
    destruct H as [H | H].
  - now exists "", "".
  - discriminate.
  - now exists "", (String d s').
  - destruct (IH H) as (pre & post & -> & Hp).
    now exists (String d pre), post.
Qed.

Lemma fnmatch_base_apk x : Pathlib.fnmatch "base.apk" x = true -> x = "base.apk".
Proof.
  intros H.
  repeat (apply fnmatch_char in H; [| reflexivity]; destruct H as (? & -> & H)).
  apply fnmatch_nil in H. now subst.
Qed.

Lemma fnmatch_obb x :
  Pathlib.fnmatch "*.obb" x = true -> exists pre, x = (pre ++ ".obb")%string.
Proof.
  intros H. apply fnmatch_star in H. destruct H as (pre & post & -> & H).
  repeat (apply fnmatch_char in H; [| reflexivity]; destruct H as (? & -> & H)).
  apply fnmatch_nil in H. subst. now exists pre.
Qed.

Lemma fnmatch_config x :
  Pathlib.fnmatch "config.*.apk" x = true ->
  exists mid, x = ("config." ++ mid ++ ".apk")%string.
Proof.
  intros H.
  do 7 (apply fnmatch_char in H; [| reflexivity]; destruct H as (? & -> & H)).
  apply fnmatch_star in H. destruct H as (pre & post & -> & H).
  repeat (apply fnmatch_char in H; [| reflexivity]; destruct H as (? & -> & H)).
  apply fnmatch_nil in H. subst. now exists pre.
Qed.

Lemma fnmatch_asset x :
  Pathlib.fnmatch "asset.*.apk" x = true ->
  exists mid, x = ("asset." ++ mid ++ ".apk")%string.
Proof.
  intros H.
  do 6 (apply fnmatch_char in H; [| reflexivity]; destruct H as (? & -> & H)).
  apply fnmatch_star in H. destruct H as (pre & post & -> & H).
  repeat (apply fnmatch_char in H; [| reflexivity]; destruct H as (? & -> & H)).
  apply fnmatch_nil in H. subst. now exists pre.
Qed.

Lemma rfind_app_dot x t :
  PyStr.rfind "." t = None ->
  PyStr.rfind "." (x ++ String "." t)%string = Some (String.length x).
Proof.
  intros Ht. induction x as [| c x IH]; simpl.
  - now rewrite Ht.
  - now rewrite IH.
Qed.

Lemma take_app x t : PyStr.take (String.length x) (x ++ t)%string = x.
Proof.
  unfold PyStr.take. induction x as [| c x IH]; simpl.
  - now destruct t.
  - now rewrite IH.
Qed.

Lemma length_append x t :
  String.length (x ++ t)%string = String.length x + String.length t.
Proof. induction x as [| c x IH]; simpl; [reflexivity | now rewrite IH]. Qed.

(** The stem of [x.apk] is [x], the extension gone, for [x] not empty. *)
Lemma stem_apk x : x <> "" -> Pathlib.stem (x ++ ".apk")%string = x.
Proof.
  intros Hx. unfold Pathlib.stem.
  rewrite (rfind_app_dot x "apk") by reflexivity.
  rewrite length_append. simpl String.length.
  destruct x as [| c x]; [congruence |].
  replace (0 <? String.length (String c x))%nat with true
    by (symmetry; apply Nat.ltb_lt; simpl; lia).
  replace (String.length (String c x) <? String.length (String c x) + 4 - 1)%nat
    with true by (symmetry; apply Nat.ltb_lt; lia).
  apply take_app.
Qed.

Lemma append_assoc (x y z : string) : ((x ++ y) ++ z = x ++ y ++ z)%string.
Proof. induction x as [| c x IH]; simpl; [reflexivity | now rewrite IH]. Qed.

(** For a file that the scan takes as a split, the stem is the name
    without [.apk]. *)
Lemma stem_of_split f :
  Pathlib.fnmatch "config.*.apk" f = true
  \/ Pathlib.fnmatch "asset.*.apk" f = true ->
  (Pathlib.stem f ++ ".apk")%string = f.
Proof.
  intros [H | H].
  - apply fnmatch_config in H. destruct H as (mid & ->).
    rewrite <- append_assoc. now rewrite stem_apk.
  - apply fnmatch_asset in H. destruct H as (mid & ->).
    rewrite <- append_assoc. now rewrite stem_apk.
Qed.

Lemma prefix_contains pre x s :
  String.prefix (pre ++ x)%string s = true -> PyStr.contains x s = true.
Proof.
  revert s. induction pre as [| c pre IH]; intros s H.
  - cbn [append] in H. destruct s; cbn [PyStr.contains]; now rewrite H.
  - destruct s as [| d s]; [discriminate |].
    simpl in H. destruct (Ascii.ascii_dec c d); [| discriminate].
    apply IH in H. cbn [PyStr.contains]. rewrite H. apply orb_true_r.
Qed.

Lemma contains_suffix pre x s :
  PyStr.contains (pre ++ x)%string s = true -> PyStr.contains x s = true.
Proof.
  induction s as [| d s IH]; intros H.
  - cbn [PyStr.contains] in H. rewrite orb_false_r in H.
    now apply prefix_contains in H.
  - cbn [PyStr.contains] in H. apply orb_prop in H. destruct H as [H | H].
    + now apply prefix_contains in H.
    + cbn [PyStr.contains]. rewrite (IH H). apply orb_true_r.
Qed.

(** ** The scan of the folder *)

Lemma last_cons {A : Type} (l : list A) (x d : A) : last (x :: l) d = last l x.
Proof.
  revert x d. induction l as [| y l IH]; intros x d; [reflexivity |].
  change (last (x :: y :: l) d) with (last (y :: l) d).
  now rewrite !IH.
Qed.

Lemma fold_set_apk_src l : forall s,
  fold_left (fun s x => set_apk_src x s) l s
  = mkXAPK (last (map Some l) (apk_src s)) (obb_files s)
           (split_config_files s) (apk s) (manifest s) (icon s).
Proof.
  induction l as [| x l IH]; intros s.
  - now destruct s.
  - cbn [fold_left map]. rewrite IH, last_cons. reflexivity.
Qed.

Lemma fold_append_obb l : forall s,
  fold_left (fun s x => append_obb_file x s) l s
  = mkXAPK (apk_src s) (obb_files s ++ l) (split_config_files s) (apk s)
           (manifest s) (icon s).
Proof.
  induction l as [| x l IH]; intros s.
  - destruct s. simpl. now rewrite app_nil_r.
  - cbn [fold_left]. rewrite IH. simpl. now rewrite <- app_assoc.
Qed.

Lemma fold_append_split l : forall s,
  fold_left (fun s x => append_split_config_file x s) l s
  = mkXAPK (apk_src s) (obb_files s) (split_config_files s ++ l) (apk s)
           (manifest s) (icon s).
Proof.
  induction l as [| x l IH]; intros s.
  - destruct s. simpl. now rewrite app_nil_r.
  - cbn [fold_left]. rewrite IH. simpl. now rewrite <- app_assoc.
Qed.

Lemma last_all {A : Type} (l : list A) (c d : A) :
  (forall x, In x l -> x = c) -> l <> [] -> last l d = c.
Proof.
  induction l as [| y l IH]; intros Hall Hne; [congruence |].
  rewrite last_cons. destruct l as [| z l].
  - apply Hall. now left.
  - rewrite <- last_cons with (d := d). apply IH; [| discriminate].
    intros x Hx. apply Hall. now right.
Qed.

(** [base.apk] is the only name the first pattern takes. *)
Lemma resolved_apk_src w :
  apk_src (resolved w)
  = match glob w "base.apk" with
    | [] => None
    | _ :: _ => Some "base.apk"
    end.
Proof.
  unfold resolved. cbn [apk_src].
  destruct (glob w "base.apk") as [| x l] eqn:E; [reflexivity |].
  apply last_all; [| discriminate].
  intros y Hy. apply in_map_iff in Hy. destruct Hy as (z & <- & Hz).
  rewrite <- E in Hz. apply filter_In in Hz. destruct Hz as (_ & Hz).
  now rewrite (fnmatch_base_apk z Hz).
Qed.

Lemma resolved_base w :
  In "base.apk" (entries w) -> apk_src (resolved w) = Some "base.apk".
Proof.
  intros H. rewrite resolved_apk_src.
  assert (G : In "base.apk" (glob w "base.apk"))
    by (apply filter_In; split; [exact H | reflexivity]).
  now destruct (glob w "base.apk").
Qed.

(** The outcome of lines 23 to 37 on a fresh object. *)
Lemma find_files_run w :
  find_files w (mkStore new_self [])
  = if negb (is_dir w) then
      (Raise (mkExc ValueError
                ("The specified folder '" ++ folder w
                 ++ "' does not exist or is not a directory.")),
       mkStore new_self [])
    else
      match apk_src (resolved w) with
      | None =>
          (Raise (mkExc FileNotFoundError
                    "No APK file found in the specified folder."),
           mkStore new_self [])
      | Some src =>
          match obb_files (resolved w), split_config_files (resolved w) with
          | [], [] =>
              (Raise (mkExc FileNotFoundError
                 "No OBB and split files found in the specified directory."),
               mkStore (resolved w) [])
          | _, _ => (Ok src, mkStore (resolved w) [])
          end
      end.
Proof.
  unfold find_files. destruct (is_dir w); [| reflexivity].
  cbn [negb]. unfold bind at 1. unfold ret at 1.
  unfold bind at 1. rewrite for_each_modify, fold_set_apk_src.
  unfold bind at 1. unfold gets at 1. cbn [self out apk_src new_self].
  change (last (map Some (glob w "base.apk")) None)
    with (apk_src (resolved w)).
  destruct (apk_src (resolved w)) as [src |] eqn:Esrc.
  - unfold bind at 1. rewrite for_each_modify, fold_append_obb.
    unfold bind at 1. rewrite for_each_modify, fold_append_split.
    unfold bind at 1. rewrite for_each_modify, fold_append_split.
    unfold bind, gets, new_self, resolved in *. simpl in *. rewrite Esrc.
    destruct (glob w "*.obb");
      destruct (glob w "config.*.apk" ++ glob w "asset.*.apk"); reflexivity.
  - reflexivity.
Qed.

(** ** Verification of the expansion files *)

Lemma skipn_cons_nth {A : Type} (i : nat) : forall (l : list A) x t,
  skipn i l = x :: t -> nth_error l i = Some x /\ skipn (S i) l = t.
Proof.
  induction i as [| i IH]; intros l x t H.
  - simpl in H. subst l. now split.
  - destruct l as [| y l]; [discriminate |].
    apply (IH l x t). exact H.
Qed.

(** Entry [i] of the list that line 49 builds is the segment list of
    file [i]. *)
Lemma obb_segments_nth obbs i f :
  nth_error obbs i = Some f ->
  option_map (PyStr.join ".") (nth_error (obb_segments obbs) i)
  = Some (obb_token f).
Proof.
  intros H. unfold obb_segments. rewrite nth_error_map, H. reflexivity.
Qed.

Lemma verify_loop_run p todo : forall i st,
  skipn i (obb_files (self st)) = todo ->
  verify_loop p i todo st
  = if forallb (fun f => String.eqb (obb_token f) p) todo
    then (Ok tt, st) else (Raise mismatch_error, st).
Proof.
  induction todo as [| f todo IH]; intros i st H; [reflexivity |].
  apply skipn_cons_nth in H. destruct H as (Hn & Hs).
  cbn [verify_loop forallb]. unfold bind at 1.
  unfold verify_step, bind, gets.
  pose proof (obb_segments_nth _ _ _ Hn) as E.
  destruct (nth_error (obb_segments (obb_files (self st))) i) as [segs |];
    [| discriminate].
  injection E as E. rewrite E.
  destruct (String.eqb (obb_token f) p); [| reflexivity].
  unfold ret. now apply IH.
Qed.

Lemma verify_run w st a p :
  apk (self st) = Some a ->
  get_package a = Ok p ->
  verify w st
  = if forallb (fun f => String.eqb (obb_token f) p) (obb_files (self st))
    then (Ok tt, logged st [Printed "Verifying APK and OBB...";
                            Query "get_package"; Printed "Verification: OK"])
    else (Raise mismatch_error,
          logged st [Printed "Verifying APK and OBB..."; Query "get_package"]).
Proof.
  intros Ha Hp. unfold verify, print.
  unfold bind at 1. unfold emit at 1.
  unfold bind at 1.
  rewrite (query_run _ _ _ a), Hp by exact Ha.
  unfold bind at 1. unfold gets at 1.
  unfold bind. rewrite verify_loop_run by reflexivity.
  cbn [self logged].
  destruct (forallb _ _).
  - unfold emit, logged. simpl. now rewrite <- !app_assoc.
  - unfold logged. simpl. now rewrite <- !app_assoc.
Qed.

(** ** The icon *)

Lemma load_icon_run st a :
  apk (self st) = Some a ->
  exists evs,
    load_icon st = (Ok tt, mkStore (with_icon a (self st)) (out st ++ evs)).
Proof.
  intros Ha. unfold load_icon, try_except, bind, gets, with_icon.
  rewrite Ha. unfold emit, lift, print, emit, modify. cbn [self out].
  destruct (get_app_icon a) as [n | e].
  - destruct (get_file a n) as [b | e].
    + eexists. rewrite <- app_assoc. reflexivity.
    + eexists. cbn [self out]. rewrite <- !app_assoc. reflexivity.
  - eexists. cbn [self out]. rewrite <- app_assoc. reflexivity.
Qed.

Lemma with_icon_raises a s : icon_raises a = true -> with_icon a s = s.
Proof.
  unfold icon_raises, with_icon. destruct (get_app_icon a) as [n | e];
    [| reflexivity].
  now destruct (get_file a n).
Qed.

(** ** The whole of [initialize] *)

Lemma build_run w src st :
  build w src st
  = match APK_open w src with
    | Raise e => (Raise e, logged st [Opened src])
    | Ok a =>
        match make_manifest w (mkStore (set_apk a (self st))
                                       (out st ++ [Opened src])) with
        | (Raise e, st2) => (Raise e, st2)
        | (Ok m, st2) =>
            match load_icon (mkStore (set_manifest m (self st2)) (out st2)) with
            | (Ok _, st3) => verify w st3
            | (Raise e, st3) => (Raise e, st3)
            end
        end
    end.
Proof.
  unfold build. unfold bind at 1. unfold emit at 1.
  unfold bind at 1. unfold lift at 1.
  destruct (APK_open w src) as [a | e]; [| reflexivity].
  unfold bind at 1. unfold modify at 1. cbn [self out].
  unfold bind at 1.
  destruct (make_manifest w _) as [[m | e] st2]; [| reflexivity].
  unfold bind at 1. unfold modify at 1.
  unfold bind at 1.
  now destruct (load_icon _) as [[[] | e] st3].
Qed.

Lemma run_init_run w :
  run_init w
  = match find_files w (mkStore new_self []) with
    | (Raise e, st) => (Raise (initialization_error e), st)
    | (Ok src, st) =>
        match build w src st with
        | (Ok u, st') => (Ok u, st')
        | (Raise e, st') => (Raise (initialization_error e), st')
        end
    end.
Proof.
  unfold run_init, initialize, try_except, initialize_body, bind.
  destruct (find_files w _) as [[src | e] st]; [| reflexivity].
  now destruct (build w src st) as [[u | e] st'].
Qed.

Section AfterInspection.

Variable w : World.
Variable a : APK.
Hypothesis dir_ok : is_dir w = true.
Hypothesis base_ok : In "base.apk" (entries w).
Hypothesis supp_ok : supplementary w = true.
Hypothesis open_ok : APK_open w "base.apk" = Ok a.

Lemma find_files_ok :
  find_files w (mkStore new_self []) = (Ok "base.apk", mkStore (resolved w) []).
Proof.
  rewrite find_files_run, dir_ok, (resolved_base w base_ok). cbn [negb].
  unfold supplementary in supp_ok. cbn [resolved obb_files split_config_files].
  destruct (glob w "*.obb");
    destruct (glob w "config.*.apk" ++ glob w "asset.*.apk");
    [discriminate | reflexivity ..].
Qed.

Lemma run_init_inspected :
  run_init w
  = match make_manifest w (inspected w "base.apk" a) with
    | (Raise e, st2) => (Raise (initialization_error e), st2)
    | (Ok m, st2) =>
        match load_icon (mkStore (set_manifest m (self st2)) (out st2)) with
        | (Ok _, st3) =>
            match verify w st3 with
            | (Ok u, st') => (Ok u, st')
            | (Raise e, st') => (Raise (initialization_error e), st')
            end
        | (Raise e, st3) => (Raise (initialization_error e), st3)
        end
    end.
Proof.
  rewrite run_init_run, find_files_ok, build_run, open_ok.
  unfold inspected. cbn [self out app].
  destruct (make_manifest w _) as [[m | e] st2]; [| reflexivity].
  now destruct (load_icon _) as [[[] | e] st3].
Qed.

(** When [make_manifest] returns [m], the outcome of the constructor is
    that of the verification, and the object holds [m] either way. *)
Lemma run_init_built m :
  built w (set_apk a (resolved w)) m ->
  exists p evs,
    get_package a = Ok p
    /\ run_init w
       = (if tokens_match w p then Ok tt
          else Raise (initialization_error mismatch_error),
          mkStore (described w a m) evs).
Proof.
  intros Hb.
  assert (Hp : exists p, get_package a = Ok p).
  { inversion Hb as [? a' p ? ? ? ? ? ? ? ? ? _ Ha' Hp']. cbn in Ha'.
    injection Ha' as <-. now exists p. }
  destruct Hp as (p & Hp). exists p.
  destruct (make_manifest_ok w (inspected w "base.apk" a) m Hb)
    as (st2 & E & S2).
  destruct (load_icon_run (mkStore (set_manifest m (self st2)) (out st2)) a)
    as (evs & Ei); [now rewrite S2 |].
  rewrite run_init_inspected, E, Ei.
  cbn [self out] in *. rewrite S2.
  erewrite verify_run; [| | exact Hp].
  2:{ cbn [self]. unfold with_icon.
      destruct (get_app_icon a) as [n |]; [destruct (get_file a n) |];
        reflexivity. }
  assert (Ho : obb_files (with_icon a
                  (set_manifest m (self (inspected w "base.apk" a))))
               = glob w "*.obb").
  { unfold with_icon.
    destruct (get_app_icon a) as [n |]; [destruct (get_file a n) |];
      reflexivity. }
  cbn [self]. rewrite Ho. fold (tokens_match w p).
  destruct (tokens_match w p); eexists; (split; [exact Hp |]);
    unfold described, logged; reflexivity.
Qed.

(** When [make_manifest] raises, so does the constructor, with the
    error of the manifest, and the object holds no manifest. *)
Lemma run_init_not_built :
  (forall m, ~ built w (set_apk a (resolved w)) m) ->
  exists e st,
    run_init w = (Raise (initialization_error (manifest_error e)), st)
    /\ self st = set_apk a (resolved w).
Proof.
  intros Hn. rewrite run_init_inspected.
  destruct (make_manifest w (inspected w "base.apk" a)) as [[m | e] st2] eqn:E.
  - exfalso. apply (Hn m). exact (make_manifest_inv _ _ _ _ E).
  - pose proof (keeps_make_manifest w _ _ _ E) as K.
    unfold make_manifest, try_except in E.
    destruct (make_manifest_body w _) as [[m | e0] st1]; [discriminate |].
    unfold raise in E. injection E as <- <-.
    now exists e0, st1.
Qed.

(** One of the two happens. *)
Lemma built_or_not :
  (exists m, built w (set_apk a (resolved w)) m)
  \/ (forall m, ~ built w (set_apk a (resolved w)) m).
Proof.
  destruct (make_manifest w (inspected w "base.apk" a)) as [[m | e] st2] eqn:E.
  - left. exists m. exact (make_manifest_inv _ _ _ _ E).
  - right. intros m Hm.
    destruct (make_manifest_ok w (inspected w "base.apk" a) m Hm)
      as (st' & E' & _).
    congruence.
Qed.

End AfterInspection.

Lemma run_init_open_raises w e :
  is_dir w = true ->
  In "base.apk" (entries w) ->
  supplementary w = true ->
  APK_open w "base.apk" = Raise e ->
  run_init w = (Raise (initialization_error e),
                mkStore (resolved w) [Opened "base.apk"]).
Proof.
  intros Hd Hb Hs Ho.
  now rewrite run_init_run, (find_files_ok w Hd Hb Hs), build_run, Ho.
Qed.

Lemma tokens_mismatch l p :
  forallb (fun f => String.eqb (obb_token f) p) l = false
  <-> exists f, In f l /\ obb_token f <> p.
Proof.
  induction l as [| x l IH]; cbn [forallb].
  - split; [discriminate | intros (f & [] & _)].
  - destruct (String.eqb_spec (obb_token x) p) as [E | N]; cbn [andb].
    + rewrite IH. split.
      * intros (f & Hf & Hn). exists f. split; [now right | exact Hn].
      * intros (f & [<- | Hf] & Hn); [contradiction | now exists f].
    + split; [| reflexivity]. intros _. exists x. split; [now left | exact N].
Qed.

Lemma tokens_all_match l p :
  forallb (fun f => String.eqb (obb_token f) p) l = true
  <-> forall f, In f l -> obb_token f = p.
Proof.
  rewrite forallb_forall. split; intros H f Hf.
  - now apply String.eqb_eq, H.
  - now apply String.eqb_eq, H.
Qed.

Lemma verify_loop_spec p st :
  verify_loop p 0 (obb_files (self st)) st
  = if forallb (fun f => String.eqb (obb_token f) p) (obb_files (self st))
    then (Ok tt, st) else (Raise mismatch_error, st).
Proof. now apply verify_loop_run. Qed.

Lemma obb_supplementary w f : In f (glob w "*.obb") -> supplementary w = true.
Proof. unfold supplementary. now destruct (glob w "*.obb"). Qed.

(** A file with another token makes the constructor raise, whatever
    else happens. *)
Lemma mismatch_fails w a p f :
  is_dir w = true ->
  In "base.apk" (entries w) ->
  APK_open w "base.apk" = Ok a ->
  get_package a = Ok p ->
  In f (glob w "*.obb") ->
  obb_token f <> p ->
  exists e, XAPK_new w = Raise e.
Proof.
  intros Hd Hb Ho Hp Hf Hn.
  pose proof (obb_supplementary w f Hf) as Hs.
  assert (T : tokens_match w p = false)
    by (apply tokens_mismatch; now exists f).
  unfold XAPK_new.
  destruct (built_or_not w a) as [(m & Hm) | Hnone].
  - destruct (run_init_built w a Hd Hb Hs Ho m Hm) as (p' & evs & Hp' & E).
    assert (p' = p) by congruence. subst p'.
    rewrite E, T. eauto.
  - destruct (run_init_not_built w a Hd Hb Hs Ho Hnone) as (e & st & E & _).
    rewrite E. eauto.
Qed.

(** * The claims *)

(** ** The manifest *)

(** C3. Whenever [make_manifest] returns a manifest, its [total_size]
    is the size of the base package plus the sizes of all the expansion
    files plus the sizes of all the split files, each size being the
    answer of [stat] for that file. *)
Theorem C3_total_size_is_sum w st m st' :
  make_manifest w st = (Ok m, st') ->
  exists src b zs ys,
    apk_src (self st) = Some src
    /\ st_size w src = Ok b
    /\ sizes w (obb_files (self st)) zs
    /\ sizes w (split_config_files (self st)) ys
    /\ dict_get "total_size" m = Some (VInt (b + Zsum zs + Zsum ys)).
Proof.
  intros H. apply make_manifest_inv in H.
  destruct H as [src a p name vc vn mn tg perms b zs ys Hsrc _ _ _ _ _ _ _ _
                   Hb Hzs Hys].
  exists src, b, zs, ys. repeat split; try assumption.
  apply manifest_total_size.
Qed.

Lemma C3_total_size_is_sum_witness :
  make_manifest w_full st_full
  = (Ok m_full, snd (make_manifest w_full st_full))
  /\ exists src b zs ys,
       apk_src (self st_full) = Some src
       /\ st_size w_full src = Ok b
       /\ sizes w_full (obb_files (self st_full)) zs
       /\ sizes w_full (split_config_files (self st_full)) ys
       /\ dict_get "total_size" m_full = Some (VInt (b + Zsum zs + Zsum ys)).
Proof.
  split; [reflexivity |].
  apply (C3_total_size_is_sum w_full st_full m_full
           (snd (make_manifest w_full st_full))).
  reflexivity.
Defined.

(** C4. In every manifest that [make_manifest] returns, the key
    [split_configs] is present exactly when there is a split file, the
    key [expansions] exactly when there is an expansion file, and
    neither key ever holds the empty list. *)
Theorem C4_optional_keys w st m st' :
  make_manifest w st = (Ok m, st') ->
  (dict_has "split_configs" m = true <-> split_config_files (self st) <> [])
  /\ (dict_has "expansions" m = true <-> obb_files (self st) <> [])
  /\ dict_get "split_configs" m <> Some (VList [])
  /\ dict_get "expansions" m <> Some (VList []).
Proof.
  intros H. apply make_manifest_inv in H.
  destruct H as [src a p name vc vn mn tg perms b zs ys _ _ _ _ _ _ _ _ _
                   _ _ _].
  unfold dict_has. rewrite manifest_split_configs, manifest_expansions.
  destruct (split_config_files (self st)) as [| s ss];
    destruct (obb_files (self st)) as [| o os];
    repeat split; intros; try congruence; try discriminate.
Qed.

Lemma C4_optional_keys_witness :
  make_manifest w_obb st_obb = (Ok m_obb, snd (make_manifest w_obb st_obb))
  /\ (dict_has "split_configs" m_obb = true
      <-> split_config_files (self st_obb) <> [])
  /\ (dict_has "expansions" m_obb = true <-> obb_files (self st_obb) <> [])
  /\ dict_get "split_configs" m_obb <> Some (VList [])
  /\ dict_get "expansions" m_obb <> Some (VList []).
Proof.
  split; [reflexivity |].
  apply (C4_optional_keys w_obb st_obb m_obb
           (snd (make_manifest w_obb st_obb))).
  reflexivity.
Defined.

(** C6. In every manifest that [make_manifest] returns, [split_apks]
    starts with the entry of file [<package_name>.apk] and id [base],
    and goes on with one entry for each split file, in the order of the
    object's list, of file the name and of id the stem of the name; for
    a name that the scan takes as a split, the stem is the name without
    its extension [.apk]. *)
Theorem C6_split_apks w st m st' :
  make_manifest w st = (Ok m, st') ->
  exists a p,
    apk (self st) = Some a
    /\ get_package a = Ok p
    /\ dict_get "package_name" m = Some (VStr p)
    /\ dict_get "split_apks" m
       = Some (VList
           (VDict [("file", VStr (p ++ ".apk")); ("id", VStr "base")]
            :: map (fun f => VDict [("file", VStr f);
                                    ("id", VStr (Pathlib.stem f))])
                   (split_config_files (self st))))
    /\ forall f,
         Pathlib.fnmatch "config.*.apk" f = true
         \/ Pathlib.fnmatch "asset.*.apk" f = true ->
         (Pathlib.stem f ++ ".apk")%string = f.
Proof.
  intros H. apply make_manifest_inv in H.
  destruct H as [src a p name vc vn mn tg perms b zs ys _ Ha Hp _ _ _ _ _ _
                   _ _ _].
  exists a, p. repeat split; try assumption.
  - apply manifest_package_name.
  - apply manifest_split_apks.
  - apply stem_of_split.
Qed.

Lemma C6_split_apks_witness :
  make_manifest w_full st_full
  = (Ok m_full, snd (make_manifest w_full st_full))
  /\ exists a p,
       apk (self st_full) = Some a
       /\ get_package a = Ok p
       /\ dict_get "package_name" m_full = Some (VStr p)
       /\ dict_get "split_apks" m_full
          = Some (VList
              (VDict [("file", VStr (p ++ ".apk")); ("id", VStr "base")]
               :: map (fun f => VDict [("file", VStr f);
                                       ("id", VStr (Pathlib.stem f))])
                      (split_config_files (self st_full))))
       /\ forall f,
            Pathlib.fnmatch "config.*.apk" f = true
            \/ Pathlib.fnmatch "asset.*.apk" f = true ->
            (Pathlib.stem f ++ ".apk")%string = f.
Proof.
  split; [reflexivity |].
  apply (C6_split_apks w_full st_full m_full
           (snd (make_manifest w_full st_full))).
  reflexivity.
Defined.

(** C7. In every manifest that [make_manifest] returns for an object
    with expansion files, [expansions] holds one entry for each
    expansion file, with [install_location] equal to
    [EXTERNAL_STORAGE], and [file] and [install_path] both equal to
    [Android/obb/<package_name>/<name of the file>]. *)
Theorem C7_expansion_entries w st m st' :
  make_manifest w st = (Ok m, st') ->
  obb_files (self st) <> [] ->
  exists p,
    dict_get "package_name" m = Some (VStr p)
    /\ dict_get "expansions" m
       = Some (VList
           (map (fun f =>
                   VDict [("file", VStr ("Android/obb/" ++ p ++ "/" ++ f));
                          ("install_location", VStr "EXTERNAL_STORAGE");
                          ("install_path",
                           VStr ("Android/obb/" ++ p ++ "/" ++ f))])
                (obb_files (self st)))).
Proof.
  intros H Hne. apply make_manifest_inv in H.
  destruct H as [src a p name vc vn mn tg perms b zs ys _ _ _ _ _ _ _ _ _
                   _ _ _].
  exists p. split.
  - apply manifest_package_name.
  - rewrite manifest_expansions.
    now destruct (obb_files (self st)).
Qed.

Lemma C7_expansion_entries_witness :
  make_manifest w_obb st_obb = (Ok m_obb, snd (make_manifest w_obb st_obb))
  /\ obb_files (self st_obb) <> []
  /\ exists p,
       dict_get "package_name" m_obb = Some (VStr p)
       /\ dict_get "expansions" m_obb
          = Some (VList
              (map (fun f =>
                 VDict [("file", VStr ("Android/obb/" ++ p ++ "/" ++ f));
                        ("install_location", VStr "EXTERNAL_STORAGE");
                        ("install_path",
                         VStr ("Android/obb/" ++ p ++ "/" ++ f))])
                 (obb_files (self st_obb)))).
Proof.
  split; [reflexivity |]. split; [discriminate |].
  apply (C7_expansion_entries w_obb st_obb m_obb
           (snd (make_manifest w_obb st_obb))).
  - reflexivity.
  - discriminate.
Defined.

(** ** Verification *)

(** C2. The token of an expansion file is made of the segments of its
    stem after the first two, joined with dots; entry [i] of the list
    that the loop indexes is the token of file [i]; the loop raises
    exactly when the token of some file differs from the package name,
    and returns exactly when all tokens are equal to it; and in a
    folder where some file differs, the constructor raises. *)
Theorem C2_verification_compares_tokens p st :
  (forall f,
     obb_token f
     = PyStr.join "." (skipn 2 (PyStr.split "." (Pathlib.stem f))))
  /\ (forall i f,
        nth_error (obb_files (self st)) i = Some f ->
        option_map (PyStr.join ".")
                   (nth_error (obb_segments (obb_files (self st))) i)
        = Some (obb_token f))
  /\ (verify_loop p 0 (obb_files (self st)) st = (Raise mismatch_error, st)
      <-> exists f, In f (obb_files (self st)) /\ obb_token f <> p)
  /\ (verify_loop p 0 (obb_files (self st)) st = (Ok tt, st)
      <-> forall f, In f (obb_files (self st)) -> obb_token f = p)
  /\ (forall w a f,
        is_dir w = true ->
        In "base.apk" (entries w) ->
        APK_open w "base.apk" = Ok a ->
        get_package a = Ok p ->
        In f (glob w "*.obb") ->
        obb_token f <> p ->
        exists e, XAPK_new w = Raise e).
Proof.
  split; [reflexivity |].
  split; [intros i f; apply obb_segments_nth |].
  rewrite verify_loop_spec, <- tokens_mismatch, <- tokens_all_match.
  split; [| split].
  - destruct (forallb _ _); split; intros H; congruence.
  - destruct (forallb _ _); split; intros H; congruence.
  - intros w a f. apply mismatch_fails.
Qed.

Lemma C2_verification_compares_tokens_witness :
  obb_token "main.123.com.example.other.obb" = "com.example.other"
  /\ verify_loop "com.example.app" 0 ["main.123.com.example.other.obb"]
       (mkStore (described w_other example_app m_other) [])
     = (Raise mismatch_error, mkStore (described w_other example_app m_other) [])
  /\ exists e, XAPK_new w_other = Raise e.
Proof.
  destruct (C2_verification_compares_tokens "com.example.app"
              (mkStore (described w_other example_app m_other) []))
    as (_ & _ & Hraise & _ & Hnew).
  split; [reflexivity |]. split.
  - apply Hraise. exists "main.123.com.example.other.obb".
    split; [now left | discriminate].
  - apply (Hnew w_other example_app "main.123.com.example.other.obb");
      try reflexivity; [now left | now left | discriminate].
Defined.

(** C10. For an expansion file whose stem has at most two segments,
    the token is the empty string; so, for a package name that is not
    empty, the loop raises the same error as for any other file whose
    token differs. *)
Theorem C10_short_stem_is_a_mismatch f :
  length (PyStr.split "." (Pathlib.stem f)) <= 2 ->
  obb_token f = ""
  /\ forall p st,
       p <> "" ->
       In f (obb_files (self st)) ->
       verify_loop p 0 (obb_files (self st)) st = (Raise mismatch_error, st).
Proof.
  intros Hlen.
  assert (T : obb_token f = "").
  { unfold obb_token.
    destruct (PyStr.split "." (Pathlib.stem f)) as [| x [| y [| z t]]];
      try reflexivity.
    simpl in Hlen. lia. }
  split; [exact T |].
  intros p st Hp Hin. rewrite verify_loop_spec.
  replace (forallb _ _) with false; [reflexivity |].
  symmetry. apply tokens_mismatch. exists f. split; [exact Hin |].
  rewrite T. congruence.
Qed.

Lemma C10_short_stem_is_a_mismatch_witness :
  obb_token "main.123.obb" = ""
  /\ verify_loop "com.example.app" 0 ["main.123.obb"]
       (mkStore (described w_short example_app m_obb) [])
     = (Raise mismatch_error, mkStore (described w_short example_app m_obb) []).
Proof.
  assert (L : length (PyStr.split "." (Pathlib.stem "main.123.obb")) <= 2)
    by (simpl; lia).
  destruct (C10_short_stem_is_a_mismatch "main.123.obb" L) as (T & V).
  split; [exact T |].
  apply (V "com.example.app" (mkStore (described w_short example_app m_obb) []));
    [discriminate | now left].
Defined.

(** C5, as the program has it. The error of a failed verification is a
    fixed one: whichever file differs, the loop raises [ValueError]
    with the text [The APK and OBB files do not belong to the same
    app.], and neither that text nor the text that [initialize] makes
    of it contains the name of any file that the scan takes as an
    expansion file. *)
Theorem C5_mismatch_error_is_fixed p st e st' :
  verify_loop p 0 (obb_files (self st)) st = (Raise e, st') ->
  e = mkExc ValueError "The APK and OBB files do not belong to the same app."
  /\ exc_str (initialization_error e)
     = "Initialization: The APK and OBB files do not belong to the same app."
  /\ forall f,
       Pathlib.fnmatch "*.obb" f = true ->
       PyStr.contains f (exc_str e) = false
       /\ PyStr.contains f (exc_str (initialization_error e)) = false.
Proof.
  rewrite verify_loop_spec. intros H.
  assert (E : e = mismatch_error)
    by (destruct (forallb _ _); congruence).
  subst e. split; [reflexivity |]. split; [reflexivity |].
  intros f Hf. apply fnmatch_obb in Hf. destruct Hf as (pre & ->).
  split.
  - destruct (PyStr.contains (pre ++ ".obb") (exc_str mismatch_error)) eqn:C;
      [| reflexivity].
    apply contains_suffix in C. discriminate.
  - destruct (PyStr.contains (pre ++ ".obb")
                (exc_str (initialization_error mismatch_error))) eqn:C;
      [| reflexivity].
    apply contains_suffix in C. discriminate.
Qed.

Lemma C5_mismatch_error_is_fixed_witness :
  verify_loop "com.example.app" 0 ["main.123.com.example.other.obb"]
    (mkStore (described w_other example_app m_other) [])
  = (Raise mismatch_error, mkStore (described w_other example_app m_other) [])
  /\ mismatch_error
     = mkExc ValueError "The APK and OBB files do not belong to the same app.".
Proof.
  split; [reflexivity |].
  apply (C5_mismatch_error_is_fixed "com.example.app"
           (mkStore (described w_other example_app m_other) [])
           mismatch_error
           (mkStore (described w_other example_app m_other) [])).
  reflexivity.
Defined.

(** C5, as it is stated, fails: in a folder whose expansion file is
    named for another package, the constructor raises an error whose
    text does not contain the name of that file. *)
Lemma C5_error_does_not_name_the_file :
  glob w_other "*.obb" = ["main.123.com.example.other.obb"]
  /\ obb_token "main.123.com.example.other.obb" <> "com.example.app"
  /\ XAPK_new w_other
     = Raise (mkExc RuntimeError
         "Initialization: The APK and OBB files do not belong to the same app.")
  /\ PyStr.contains "main.123.com.example.other.obb"
       "Initialization: The APK and OBB files do not belong to the same app."
     = false.
Proof. repeat split. discriminate. Qed.

(** ** The constructor *)

(** C8. In a folder that holds [base.apk] and neither an expansion file
    nor a split, the constructor raises the error of the missing
    supplementary files, and it does so before any inspection: the
    object has no [APK], and no call to the package, to [stat] or to
    [print] has been made. *)
Theorem C8_bare_base_fails_before_inspection w :
  is_dir w = true ->
  In "base.apk" (entries w) ->
  glob w "*.obb" = [] ->
  glob w "config.*.apk" = [] ->
  glob w "asset.*.apk" = [] ->
  run_init w
  = (Raise (initialization_error
       (mkExc FileNotFoundError
          "No OBB and split files found in the specified directory.")),
     mkStore (mkXAPK (Some "base.apk") [] [] None None None) [])
  /\ XAPK_new w
     = Raise (mkExc RuntimeError
         "Initialization: No OBB and split files found in the specified directory.").
Proof.
  intros Hd Hb Ho Hc Ha.
  assert (E : run_init w
    = (Raise (initialization_error
         (mkExc FileNotFoundError
            "No OBB and split files found in the specified directory.")),
       mkStore (mkXAPK (Some "base.apk") [] [] None None None) [])).
  { rewrite run_init_run, find_files_run, Hd, (resolved_base w Hb).
    cbn [negb resolved obb_files split_config_files].
    rewrite Ho, Hc, Ha. cbn [app].
    pose proof (resolved_base w Hb) as R. unfold resolved in *.
    cbn [apk_src] in R. now rewrite R, Ho, Hc, Ha. }
  split; [exact E |].
  unfold XAPK_new. now rewrite E.
Qed.

Lemma C8_bare_base_fails_before_inspection_witness :
  out (snd (run_init w_bare)) = []
  /\ apk (self (snd (run_init w_bare))) = None
  /\ XAPK_new w_bare
     = Raise (mkExc RuntimeError
         "Initialization: No OBB and split files found in the specified directory.").
Proof.
  assert (Hb : In "base.apk" (entries w_bare)) by now left.
  destruct (C8_bare_base_fails_before_inspection w_bare eq_refl Hb
              eq_refl eq_refl eq_refl) as (E & N).
  rewrite E. split; [reflexivity |]. split; [reflexivity | exact N].
Defined.

(** C9. In a folder that the scan accepts: an exception of the [APK]
    constructor makes the constructor of [XAPK] raise; so does an
    exception of any method of the package other than the two of the
    icon; but when the retrieval of the icon raises, and the manifest
    is made and all tokens match, the constructor returns the object,
    with its manifest and with no icon. *)
Theorem C9_only_the_icon_may_fail w :
  is_dir w = true ->
  In "base.apk" (entries w) ->
  supplementary w = true ->
  (forall e,
     APK_open w "base.apk" = Raise e ->
     XAPK_new w = Raise (initialization_error e))
  /\ (forall a,
        APK_open w "base.apk" = Ok a ->
        answers a = false ->
        exists e, XAPK_new w = Raise e)
  /\ (forall a m p,
        APK_open w "base.apk" = Ok a ->
        icon_raises a = true ->
        built w (set_apk a (resolved w)) m ->
        get_package a = Ok p ->
        tokens_match w p = true ->
        exists x,
          XAPK_new w = Ok x
          /\ icon x = None
          /\ manifest x = Some m
          /\ apk x = Some a).
Proof.
  intros Hd Hb Hs. split; [| split].
  - intros e Ho. unfold XAPK_new.
    now rewrite (run_init_open_raises w e Hd Hb Hs Ho).
  - intros a Ho Hans. unfold XAPK_new.
    destruct (run_init_not_built w a Hd Hb Hs Ho) as (e & st & E & _).
    + intros m Hm.
      inversion Hm as [? a' ? ? ? ? ? ? ? ? ? ? _ Ha' Q1 Q2 Q3 Q4 Q5 Q6 Q7].
      cbn in Ha'. injection Ha' as <-.
      unfold answers in Hans.
      rewrite Q1, Q2, Q3, Q4, Q5, Q6, Q7 in Hans. discriminate.
    + rewrite E. eauto.
  - intros a m p Ho Hi Hm Hp Ht.
    destruct (run_init_built w a Hd Hb Hs Ho m Hm) as (p' & evs & Hp' & E).
    assert (p' = p) by congruence. subst p'.
    rewrite Ht in E. unfold XAPK_new. rewrite E. cbn [self].
    exists (described w a m). split; [reflexivity |].
    unfold described. rewrite (with_icon_raises a _ Hi). now repeat split.
Qed.

Lemma C9_only_the_icon_may_fail_witness :
  icon_raises example_app = true
  /\ exists x,
       XAPK_new w_obb = Ok x
       /\ icon x = None
       /\ manifest x = Some m_obb
       /\ apk x = Some example_app.
Proof.
  split; [reflexivity |].
  assert (Hb : In "base.apk" (entries w_obb)) by now left.
  destruct (C9_only_the_icon_may_fail w_obb eq_refl Hb eq_refl)
    as (_ & _ & H).
  apply (H example_app _ "com.example.app"); try reflexivity.
  apply (make_manifest_inv w_obb (inspected w_obb "base.apk" example_app)
           _ (snd (make_manifest w_obb
                     (inspected w_obb "base.apk" example_app)))).
  reflexivity.
Defined.

(** C1, as the program has it. The manifest is made before the
    verification, not after it. When the token of some expansion file
    differs from the package name, the constructor raises, so that the
    caller gets no object and no manifest; if [make_manifest] returned
    a manifest, the error is that of the mismatch and the object that
    is given up already holds that manifest; if [make_manifest] raised,
    the error is that of the manifest, and the verification is not
    reached. *)
Theorem C1_mismatch_fails_after_manifest w a p f :
  is_dir w = true ->
  In "base.apk" (entries w) ->
  APK_open w "base.apk" = Ok a ->
  get_package a = Ok p ->
  In f (glob w "*.obb") ->
  obb_token f <> p ->
  (exists e, XAPK_new w = Raise e)
  /\ (forall m,
        built w (set_apk a (resolved w)) m ->
        exists evs,
          run_init w = (Raise (initialization_error mismatch_error),
                        mkStore (described w a m) evs)
          /\ manifest (described w a m) = Some m)
  /\ ((forall m, ~ built w (set_apk a (resolved w)) m) ->
      exists e st,
        run_init w = (Raise (initialization_error (manifest_error e)), st)
        /\ manifest (self st) = None).
Proof.
  intros Hd Hb Ho Hp Hf Hn.
  pose proof (obb_supplementary w f Hf) as Hs.
  split; [exact (mismatch_fails w a p f Hd Hb Ho Hp Hf Hn) |].
  split.
  - intros m Hm.
    destruct (run_init_built w a Hd Hb Hs Ho m Hm) as (p' & evs & Hp' & E).
    assert (p' = p) by congruence. subst p'.
    assert (T : tokens_match w p = false)
      by (apply tokens_mismatch; now exists f).
    rewrite T in E. exists evs. split; [exact E |].
    unfold described, with_icon.
    destruct (get_app_icon a) as [n |]; [destruct (get_file a n) |];
      reflexivity.
  - intros Hnone.
    destruct (run_init_not_built w a Hd Hb Hs Ho Hnone) as (e & st & E & S).
    exists e, st. split; [exact E | now rewrite S].
Qed.

Lemma C1_mismatch_fails_after_manifest_witness :
  (exists e, XAPK_new w_other = Raise e)
  /\ exists evs,
       run_init w_other
       = (Raise (initialization_error mismatch_error),
          mkStore (described w_other example_app m_other) evs).
Proof.
  assert (Hb : In "base.apk" (entries w_other)) by now left.
  assert (Hf : In "main.123.com.example.other.obb" (glob w_other "*.obb"))
    by now left.
  assert (Hn : obb_token "main.123.com.example.other.obb"
               <> "com.example.app") by discriminate.
  destruct (C1_mismatch_fails_after_manifest w_other example_app
              "com.example.app" "main.123.com.example.other.obb"
              eq_refl Hb eq_refl eq_refl Hf Hn) as (Hraise & Hbuilt & _).
  split; [exact Hraise |].
  destruct (Hbuilt m_other) as (evs & E & _).
  - apply (make_manifest_inv w_other
             (inspected w_other "base.apk" example_app) _
             (snd (make_manifest w_other
                     (inspected w_other "base.apk" example_app)))).
    reflexivity.
  - now exists evs.
Defined.

(** C1, as it is stated, fails: in a folder whose expansion file is
    named for another package, the run that ends in the error of the
    mismatch has made the manifest first.  The object holds it when the
    error is raised, and the log shows [stat] and the calls of
    [make_manifest] before the line that announces the verification. *)
Lemma C1_manifest_is_made_before_verification :
  obb_token "main.123.com.example.other.obb" <> "com.example.app"
  /\ fst (run_init w_other) = Raise (initialization_error mismatch_error)
  /\ manifest (self (snd (run_init w_other))) = Some m_other
  /\ out (snd (run_init w_other))
     = [Opened "base.apk"; Stat "base.apk";
        Stat "main.123.com.example.other.obb";
        Query "get_package"; Query "get_package"; Query "get_package";
        Query "get_package"; Query "get_app_name";
        Query "get_androidversion_code"; Query "get_androidversion_name";
        Query "get_min_sdk_version"; Query "get_target_sdk_version";
        Query "get_permissions"; Query "get_app_icon";
        Printed "Skip icon: {e}"; Printed "Verifying APK and OBB...";
        Query "get_package"].
Proof. repeat split. discriminate. Qed.

(** * Further properties of the code *)

(** ** The scan and the constructor *)

Lemma resolved_apk_src_inv w src :
  apk_src (resolved w) = Some src ->
  src = "base.apk" /\ In "base.apk" (entries w).
Proof.
  rewrite resolved_apk_src.
  destruct (glob w "base.apk") as [| y l] eqn:E; [discriminate |].
  intros H. injection H as <-. split; [reflexivity |].
  assert (Hy : In y (glob w "base.apk")) by (rewrite E; now left).
  apply filter_In in Hy. destruct Hy as (Hin & Hm).
  now rewrite <- (fnmatch_base_apk y Hm).
Qed.

Lemma resolved_no_base w :
  ~ In "base.apk" (entries w) -> apk_src (resolved w) = None.
Proof.
  intros Hn. destruct (apk_src (resolved w)) as [src |] eqn:E; [| reflexivity].
  apply resolved_apk_src_inv in E. now destruct E.
Qed.

Lemma run_init_not_dir w :
  is_dir w = false ->
  run_init w
  = (Raise (mkExc RuntimeError
       ("Initialization: The specified folder '" ++ folder w
        ++ "' does not exist or is not a directory.")),
     mkStore new_self []).
Proof.
  intros Hd. now rewrite run_init_run, find_files_run, Hd.
Qed.

Lemma XAPK_new_iff w x :
  XAPK_new w = Ok x
  <-> is_dir w = true
      /\ In "base.apk" (entries w)
      /\ supplementary w = true
      /\ exists a m p,
           APK_open w "base.apk" = Ok a
           /\ built w (set_apk a (resolved w)) m
           /\ get_package a = Ok p
           /\ tokens_match w p = true
           /\ x = described w a m.
Proof.
  split.
  - unfold XAPK_new. intros H.
    destruct (is_dir w) eqn:Hd.
    2:{ rewrite (run_init_not_dir w Hd) in H. discriminate. }
    destruct (apk_src (resolved w)) as [src |] eqn:Esrc.
    2:{ rewrite run_init_run, find_files_run, Hd, Esrc in H. discriminate. }
    apply resolved_apk_src_inv in Esrc. destruct Esrc as (-> & Hb).
    destruct (supplementary w) eqn:Hs.
    2:{ rewrite run_init_run, find_files_run, Hd, (resolved_base w Hb) in H.
        unfold supplementary in Hs. cbn [negb resolved obb_files
          split_config_files] in H.
        destruct (glob w "*.obb");
          destruct (glob w "config.*.apk" ++ glob w "asset.*.apk");
          discriminate. }
    destruct (APK_open w "base.apk") as [a | e] eqn:Ho.
    2:{ rewrite (run_init_open_raises w e Hd Hb Hs Ho) in H. discriminate. }
    destruct (built_or_not w a) as [(m & Hm) | Hnone].
    + destruct (run_init_built w a Hd Hb Hs Ho m Hm) as (p & evs & Hp & E).
      rewrite E in H. destruct (tokens_match w p) eqn:Ht; [| discriminate].
      injection H as <-. repeat split; try assumption.
      now exists a, m, p.
    + destruct (run_init_not_built w a Hd Hb Hs Ho Hnone) as (e & st & E & _).
      rewrite E in H. discriminate.
  - intros (Hd & Hb & Hs & a & m & p & Ho & Hm & Hp & Ht & ->).
    destruct (run_init_built w a Hd Hb Hs Ho m Hm) as (p' & evs & Hp' & E).
    assert (p' = p) by congruence. subst p'.
    unfold XAPK_new. now rewrite E, Ht.
Qed.

Lemma described_fields w a m :
  apk (described w a m) = Some a
  /\ apk_src (described w a m) = apk_src (resolved w)
  /\ obb_files (described w a m) = glob w "*.obb"
  /\ split_config_files (described w a m)
     = glob w "config.*.apk" ++ glob w "asset.*.apk"
  /\ manifest (described w a m) = Some m.
Proof.
  unfold described, with_icon.
  destruct (get_app_icon a) as [n |]; [destruct (get_file a n) |];
    now repeat split.
Qed.

(** What [save] needs of an object that the constructor returned. *)
Lemma constructed w x :
  XAPK_new w = Ok x ->
  exists a m p v,
    x = described w a m
    /\ built w (set_apk a (resolved w)) m
    /\ apk x = Some a
    /\ apk_src x = Some "base.apk"
    /\ get_package a = Ok p
    /\ get_androidversion_name a = Ok v
    /\ dict_get "package_name" m = Some (VStr p)
    /\ listed_files m
       = (p ++ ".apk")%string :: split_config_files x
         ++ map (obb_path p) (obb_files x).
Proof.
  intros Hx. apply XAPK_new_iff in Hx.
  destruct Hx as (_ & Hb & _ & a & m & p & _ & Hm & Hp & _ & ->).
  destruct (described_fields w a m) as (Fa & Fs & Fo & Fc & Fm).
  pose proof Hm as Hm'.
  destruct Hm' as [src a' p' name vc vn mn tg perms b zs ys
                     Hs Ha' Hp' _ _ Hv _ _ _ _ _ _].
  cbn in Ha'. injection Ha' as <-.
  assert (p' = p) by congruence. subst p'.
  exists a, (manifest_of p name vc vn mn tg perms (b + Zsum zs + Zsum ys)
               (obb_files (set_apk a (resolved w)))
               (split_config_files (set_apk a (resolved w)))), p, vn.
  split; [reflexivity |]. split; [exact Hm |]. split; [exact Fa |].
  split; [rewrite Fs; exact (resolved_base w Hb) |].
  split; [exact Hp |]. split; [exact Hv |].
  split; [apply manifest_package_name |].
  unfold listed_files.
  rewrite manifest_split_apks, manifest_expansions, Fo, Fc.
  cbn [obb_files split_config_files set_apk resolved].
  assert (E1 : forall l, flat_map entry_file
                 (map (fun f => split_entry f (Pathlib.stem f)) l) = l).
  { induction l as [| f l IH]; [reflexivity |]. cbn. now rewrite IH. }
  assert (E2 : forall l, flat_map entry_file (map (obb_entry p p) l)
                         = map (obb_path p) l).
  { induction l as [| f l IH]; [reflexivity |]. cbn. now rewrite IH. }
  cbn [flat_map entry_file split_entry dict_get String.eqb Ascii.eqb
       Bool.eqb app].
  rewrite E1.
  destruct (glob w "*.obb") as [| o os] eqn:Eo.
  - cbn. now rewrite app_nil_r.
  - rewrite E2. reflexivity.
Qed.

(** X1. When the path is not a directory, the constructor raises the
    error that names the path, and has looked at nothing: the object
    is as [__init__] made it and no call to the outside is logged. *)
Theorem X1_not_a_directory w :
  is_dir w = false ->
  run_init w
  = (Raise (mkExc RuntimeError
       ("Initialization: The specified folder '" ++ folder w
        ++ "' does not exist or is not a directory.")),
     mkStore new_self []).
Proof. exact (run_init_not_dir w). Qed.

Lemma X1_not_a_directory_witness :
  XAPK_new (mkWorld "nowhere" false ["base.apk"; "main.1.a.b.obb"]
              (fun _ => Ok 1%Z) (fun _ => Ok example_app))
  = Raise (mkExc RuntimeError
      "Initialization: The specified folder 'nowhere' does not exist or is not a directory.").
Proof.
  unfold XAPK_new.
  now rewrite (X1_not_a_directory
                 (mkWorld "nowhere" false ["base.apk"; "main.1.a.b.obb"]
                    (fun _ => Ok 1%Z) (fun _ => Ok example_app)) eq_refl).
Defined.

(** X2. In a directory without [base.apk], the constructor raises the
    error of the missing APK, whatever else the directory holds, and
    before it takes any other file or inspects anything. *)
Theorem X2_missing_base_package w :
  is_dir w = true ->
  ~ In "base.apk" (entries w) ->
  run_init w
  = (Raise (mkExc RuntimeError
       "Initialization: No APK file found in the specified folder."),
     mkStore new_self []).
Proof.
  intros Hd Hn.
  now rewrite run_init_run, find_files_run, Hd, (resolved_no_base w Hn).
Qed.

Lemma X2_missing_base_package_witness :
  XAPK_new (folder_of [("main.123.com.example.app.obb", 2000%Z);
                       ("Base.apk", 1000%Z)] (Ok example_app))
  = Raise (mkExc RuntimeError
      "Initialization: No APK file found in the specified folder.").
Proof.
  unfold XAPK_new.
  rewrite (X2_missing_base_package
             (folder_of [("main.123.com.example.app.obb", 2000%Z);
                         ("Base.apk", 1000%Z)] (Ok example_app)) eq_refl).
  - reflexivity.
  - intros [H | [H | []]]; discriminate.
Defined.

(** X3. The constructor returns an object exactly when the path is a
    directory that holds [base.apk] and an expansion file or a split,
    the package opens, [make_manifest] returns a manifest [m], and the
    token of every expansion file is the package name; the object is
    then the scanned one with the package, [m] and the icon (if it
    could be read). *)
Theorem X3_constructor_succeeds_iff w x :
  XAPK_new w = Ok x
  <-> is_dir w = true
      /\ In "base.apk" (entries w)
      /\ supplementary w = true
      /\ exists a m p,
           APK_open w "base.apk" = Ok a
           /\ built w (set_apk a (resolved w)) m
           /\ get_package a = Ok p
           /\ tokens_match w p = true
           /\ x = described w a m.
Proof. exact (XAPK_new_iff w x). Qed.

(** X4. Whatever makes the constructor fail, the exception that
    leaves it is a [RuntimeError] whose text is [Initialization: ]
    followed by the text of the cause. *)
Theorem X4_constructor_raises_runtime_error w e :
  XAPK_new w = Raise e ->
  exc_class e = RuntimeError
  /\ exists cause, exc_str e = ("Initialization: " ++ exc_str cause)%string.
Proof.
  unfold XAPK_new. rewrite run_init_run.
  destruct (find_files w _) as [[src | e0] st].
  - destruct (build w src st) as [[u | e1] st']; intros H;
      [discriminate |].
    injection H as <-. split; [reflexivity | now exists e1].
  - intros H. injection H as <-. split; [reflexivity | now exists e0].
Qed.

Lemma X4_constructor_raises_runtime_error_witness :
  exc_class (initialization_error mismatch_error) = RuntimeError
  /\ exists cause,
       exc_str (initialization_error mismatch_error)
       = ("Initialization: " ++ exc_str cause)%string.
Proof.
  apply (X4_constructor_raises_runtime_error w_other). reflexivity.
Defined.

Lemma X3_constructor_succeeds_iff_witness :
  XAPK_new w_obb = Ok (described w_obb example_app m_obb).
Proof.
  apply (X3_constructor_succeeds_iff w_obb).
  split; [reflexivity |]. split; [now left |]. split; [reflexivity |].
  exists example_app, m_obb, "com.example.app".
  split; [reflexivity |]. split.
  - apply (make_manifest_inv w_obb st_obb m_obb
             (snd (make_manifest w_obb st_obb))).
    reflexivity.
  - now repeat split.
Defined.

(** ** The roles of the files *)

Lemma substring_tail x t :
  String.substring (String.length x) (String.length t) (x ++ t)%string = t.
Proof.
  induction x as [| c x IH]; [| exact IH].
  cbn [String.length append]. induction t as [| d t IHt]; [reflexivity |].
  cbn [String.length String.substring]. now rewrite IHt.
Qed.

Lemma extension_app x t :
  String.length t = 4 -> extension (x ++ t)%string = t.
Proof.
  intros Ht. unfold extension. rewrite length_append, Ht.
  replace (String.length x + 4 - 4) with (String.length x) by lia.
  rewrite <- Ht. apply substring_tail.
Qed.

Lemma obb_extension f :
  Pathlib.fnmatch "*.obb" f = true -> extension f = ".obb".
Proof.
  intros H. apply fnmatch_obb in H. destruct H as (pre & ->).
  now apply extension_app.
Qed.

Lemma split_extension f :
  Pathlib.fnmatch "config.*.apk" f = true
  \/ Pathlib.fnmatch "asset.*.apk" f = true ->
  extension f = ".apk".
Proof.
  intros [H | H].
  - apply fnmatch_config in H. destruct H as (mid & ->).
    rewrite <- append_assoc. now apply extension_app.
  - apply fnmatch_asset in H. destruct H as (mid & ->).
    rewrite <- append_assoc. now apply extension_app.
Qed.

Lemma NoDup_app_disjoint {A : Type} (l l' : list A) :
  NoDup l -> NoDup l' -> (forall a, In a l -> ~ In a l') -> NoDup (l ++ l').
Proof.
  intros Hl Hl' Hd. induction Hl as [| x l Hx Hl IH]; [exact Hl' |].
  cbn [app]. constructor.
  - rewrite in_app_iff. intros [H | H]; [contradiction |].
    apply (Hd x); [now left | exact H].
  - apply IH. intros a Ha. apply Hd. now right.
Qed.

Lemma resolved_roles w :
  NoDup (entries w) ->
  NoDup (glob w "*.obb" ++ glob w "config.*.apk" ++ glob w "asset.*.apk")
  /\ ~ In "base.apk"
         (glob w "*.obb" ++ glob w "config.*.apk" ++ glob w "asset.*.apk").
Proof.
  intros Hnd. unfold glob. split.
  - apply NoDup_app_disjoint; [now apply NoDup_filter | |].
    + apply NoDup_app_disjoint; try now apply NoDup_filter.
      intros f Hc Ha. apply filter_In in Hc, Ha.
      destruct Hc as (_ & Hc). destruct Ha as (_ & Ha).
      apply fnmatch_config in Hc. apply fnmatch_asset in Ha.
      destruct Hc as (m1 & ->). destruct Ha as (m2 & Ha). discriminate.
    + intros f Ho Hs. apply filter_In in Ho. destruct Ho as (_ & Ho).
      apply obb_extension in Ho.
      assert (Hx : extension f = ".apk").
      { apply split_extension. apply in_app_iff in Hs.
        destruct Hs as [Hs | Hs]; apply filter_In in Hs; tauto. }
      congruence.
  - rewrite !in_app_iff. intros [H | [H | H]]; apply filter_In in H;
      destruct H as (_ & H); discriminate.
Qed.

(** ** The token of a well-named expansion file *)

Lemma split_not_nil c s : PyStr.split c s <> [].
Proof.
  destruct s as [| d s]; cbn [PyStr.split]; [discriminate |].
  destruct (Ascii.eqb d c); [discriminate |].
  destruct (PyStr.split c s); discriminate.
Qed.

Lemma split_app c a b :
  PyStr.split c (a ++ String c b)%string = PyStr.split c a ++ PyStr.split c b.
Proof.
  induction a as [| x a IH]; cbn [append PyStr.split].
  - now rewrite Ascii.eqb_refl.
  - destruct (Ascii.eqb x c); rewrite IH; [reflexivity |].
    pose proof (split_not_nil c a) as Hn.
    now destruct (PyStr.split c a).
Qed.

(** Joining what [split] gave gives the string back. *)
Lemma join_split c s : PyStr.join (String c "") (PyStr.split c s) = s.
Proof.
  unfold PyStr.join. induction s as [| x s IH]; [reflexivity |].
  cbn [PyStr.split]. pose proof (split_not_nil c s) as Hn.
  destruct (Ascii.eqb_spec x c) as [-> | Hx].
  - cbn [String.concat]. destruct (PyStr.split c s) as [| h t] eqn:E;
      [congruence |].
    cbn [append]. now rewrite IH.
  - destruct (PyStr.split c s) as [| h t] eqn:E; [congruence |].
    destruct t as [| h' t]; simpl in *; congruence.
Qed.

Lemma stem_obb_name x : x <> "" -> Pathlib.stem (x ++ ".obb")%string = x.
Proof.
  intros Hx. unfold Pathlib.stem.
  rewrite (rfind_app_dot x "obb") by reflexivity.
  rewrite length_append. simpl String.length.
  destruct x as [| c x]; [congruence |].
  replace (0 <? String.length (String c x))%nat with true
    by (symmetry; apply Nat.ltb_lt; simpl; lia).
  replace (String.length (String c x) <? String.length (String c x) + 4 - 1)%nat
    with true by (symmetry; apply Nat.ltb_lt; lia).
  apply take_app.
Qed.

(** X6. An expansion file named [<kind>.<version>.<package>.obb], with
    no dot in [kind] or in [version], carries the package name as its
    token, whatever the package name is; a list of files so named for
    the package passes the verification loop. *)
Theorem X6_conventional_name_carries_package kind version p :
  PyStr.split "." kind = [kind] ->
  PyStr.split "." version = [version] ->
  obb_token (kind ++ "." ++ version ++ "." ++ p ++ ".obb") = p
  /\ forall st,
       (forall f, In f (obb_files (self st)) ->
                  exists k v,
                    PyStr.split "." k = [k] /\ PyStr.split "." v = [v]
                    /\ f = (k ++ "." ++ v ++ "." ++ p ++ ".obb")%string) ->
       verify_loop p 0 (obb_files (self st)) st = (Ok tt, st).
Proof.
  assert (T : forall k v, PyStr.split "." k = [k] -> PyStr.split "." v = [v] ->
              obb_token (k ++ "." ++ v ++ "." ++ p ++ ".obb") = p).
  { intros k v Hk Hv. unfold obb_token.
    replace (k ++ "." ++ v ++ "." ++ p ++ ".obb")%string
      with ((k ++ "." ++ v ++ "." ++ p) ++ ".obb")%string
      by (rewrite !append_assoc; reflexivity).
    rewrite stem_obb_name.
    - change (k ++ "." ++ v ++ "." ++ p)%string
        with (k ++ String "." (v ++ String "." p))%string.
      rewrite !split_app, Hk, Hv. cbn [app skipn].
      apply (join_split "." p).
    - destruct k; discriminate. }
  intros Hk Hv. split; [now apply T |].
  intros st Hall. rewrite verify_loop_spec.
  replace (forallb _ _) with true; [reflexivity |].
  symmetry. apply tokens_all_match. intros f Hf.
  destruct (Hall f Hf) as (k & v & Hk' & Hv' & ->). now apply T.
Qed.

Lemma X6_conventional_name_carries_package_witness :
  obb_token "patch.7.com.example.app.obb" = "com.example.app".
Proof.
  apply (X6_conventional_name_carries_package "patch" "7" "com.example.app");
    reflexivity.
Defined.

(** ** More on [make_manifest] *)

(** X7. The keys of every manifest that [make_manifest] returns are
    the ten fixed ones in their order, then [split_configs] if there
    is a split, then [expansions] if there is an expansion file, and
    no key occurs twice; [xapk_version] is 2; and [split_configs],
    when present, lists the stems of the splits in the order of the
    entries that follow the base in [split_apks]. *)
Theorem X7_manifest_keys w st m st' :
  make_manifest w st = (Ok m, st') ->
  map fst m
  = ["xapk_version"; "package_name"; "name"; "version_code"; "version_name";
     "min_sdk_version"; "target_sdk_version"; "permissions"; "total_size";
     "split_apks"]
    ++ (match split_config_files (self st) with
        | [] => []
        | _ :: _ => ["split_configs"]
        end)
    ++ (match obb_files (self st) with
        | [] => []
        | _ :: _ => ["expansions"]
        end)
  /\ NoDup (map fst m)
  /\ dict_get "xapk_version" m = Some (VInt 2)
  /\ (split_config_files (self st) <> [] ->
      dict_get "split_configs" m
      = Some (VList (map (fun f => VStr (Pathlib.stem f))
                         (split_config_files (self st)))))
  /\ dict_get "split_apks" m
     = Some (VList
         (match dict_get "package_name" m with
          | Some (VStr p) => split_entry (p ++ ".apk") "base"
          | _ => VList []
          end
          :: map (fun f => split_entry f (Pathlib.stem f))
                 (split_config_files (self st)))).
Proof.
  intros H. apply make_manifest_inv in H.
  destruct H as [src a p name vc vn mn tg perms b zs ys _ _ _ _ _ _ _ _ _
                   _ _ _].
  rewrite manifest_split_configs, manifest_split_apks, manifest_package_name.
  unfold manifest_of.
  destruct (split_config_files (self st)) as [| s ss];
    destruct (obb_files (self st)) as [| o os];
    (split; [reflexivity |]); (split; [| split; [reflexivity |]]);
    try (split; [congruence || reflexivity | reflexivity]);
    cbn; repeat constructor; cbn; intuition discriminate.
Qed.

Lemma X7_manifest_keys_witness :
  make_manifest w_full st_full
  = (Ok m_full, snd (make_manifest w_full st_full))
  /\ map fst m_full
     = ["xapk_version"; "package_name"; "name"; "version_code"; "version_name";
        "min_sdk_version"; "target_sdk_version"; "permissions"; "total_size";
        "split_apks"; "split_configs"; "expansions"].
Proof.
  split; [reflexivity |].
  apply (X7_manifest_keys w_full st_full m_full
           (snd (make_manifest w_full st_full))).
  reflexivity.
Defined.

(** X8. [make_manifest] never changes the object, whether it returns
    or raises; and what it raises is always a [RuntimeError] whose
    text is [Manifest creation: ] followed by the text of the cause. *)
Theorem X8_make_manifest_effects w st r st' :
  make_manifest w st = (r, st') ->
  self st' = self st
  /\ forall e,
       r = Raise e ->
       exc_class e = RuntimeError
       /\ exists cause,
            exc_str e = ("Manifest creation: " ++ exc_str cause)%string.
Proof.
  intros H. split; [exact (keeps_make_manifest w _ _ _ H) |].
  intros e ->. unfold make_manifest, try_except in H.
  destruct (make_manifest_body w st) as [[m | e0] st1]; [discriminate |].
  unfold raise in H. injection H as <- _.
  split; [reflexivity | now exists e0].
Qed.

Lemma X8_make_manifest_effects_witness :
  self (snd (make_manifest w_short
               (mkStore (set_apk example_app (resolved w_obb)) [])))
  = set_apk example_app (resolved w_obb)
  /\ fst (make_manifest w_short
            (mkStore (set_apk example_app (resolved w_obb)) []))
     = Raise (mkExc RuntimeError
         "Manifest creation: [Errno 2] No such file or directory: 'main.123.com.example.app.obb'").
Proof.
  destruct (X8_make_manifest_effects w_short
              (mkStore (set_apk example_app (resolved w_obb)) [])
              (fst (make_manifest w_short
                      (mkStore (set_apk example_app (resolved w_obb)) [])))
              (snd (make_manifest w_short
                      (mkStore (set_apk example_app (resolved w_obb)) [])))
              eq_refl) as (K & _).
  split; [exact K | reflexivity].
Defined.

(** ** The steps of [save] *)

Lemma stages_print line : stages (io_print line) (fun t => t).
Proof.
  intros d r d' H. injection H as <- <-. cbn.
  repeat split; trivial. now exists t.
Qed.

Lemma stages_call oracle : stages (io_call oracle) (fun t => t).
Proof.
  intros d r d' H. destruct oracle as [e |]; injection H as <- <-;
    repeat split; trivial; try (now exists t); discriminate.
Qed.

Lemma stages_stage path c : stages (stage path c) (tree_put path c).
Proof.
  intros d r d' H. unfold stage in H.
  destruct (zip_dir d) as [t0 |] eqn:E.
  - injection H as <- <-. cbn. repeat split; trivial.
    + now exists (tree_put path c t0).
    + intros _. congruence.
  - injection H as <- <-. repeat split; trivial; congruence.
Qed.

Lemma stages_bind m m' f g :
  stages m f -> stages m' g ->
  stages (io_bind m (fun _ => m')) (fun t => g (f t)).
Proof.
  intros Hm Hm' d r d' H. unfold io_bind in H.
  destruct (m d) as [[[] | e] d1] eqn:E.
  - destruct (Hm _ _ _ E) as (N1 & Z1 & T1).
    destruct (Hm' _ _ _ H) as (N2 & Z2 & T2).
    split; [congruence |]. split; [congruence |].
    intros t Ht. destruct (T1 t Ht) as (_ & F1).
    exact (T2 (f t) (F1 eq_refl)).
  - injection H as <- <-. destruct (Hm _ _ _ E) as (N1 & Z1 & T1).
    split; [exact N1 |]. split; [exact Z1 |].
    intros t Ht. destruct (T1 t Ht) as (X1 & _).
    split; [exact X1 | discriminate].
Qed.

Lemma stages_ext m f g :
  (forall t, f t = g t) -> stages m f -> stages m g.
Proof.
  intros Hfg Hm d r d' H. destruct (Hm _ _ _ H) as (N & Z & T).
  split; [exact N |]. split; [exact Z |].
  intros t Ht. destruct (T t Ht) as (X & F).
  split; [exact X |]. intros Hr. rewrite <- Hfg. now apply F.
Qed.

Lemma stages_raise e f : stages (io_raise e) f.
Proof.
  intros d r d' H. injection H as <- <-.
  repeat split; trivial; try (now exists t); discriminate.
Qed.

Lemma stages_for_each {A : Type} (body : A -> IO unit)
    (step : tree -> A -> tree) l :
  (forall x, stages (body x) (fun t => step t x)) ->
  stages (io_for_each l body) (fun t => fold_left step l t).
Proof.
  intros Hb. induction l as [| x l IH]; cbn [io_for_each fold_left].
  - intros d r d' H. injection H as <- <-.
    repeat split; trivial; try (now exists t); congruence.
  - exact (stages_bind _ _ _ _ (Hb x) IH).
Qed.

Lemma stages_copy2 k name path :
  stages (copy2 k name path) (tree_put path (Copy name)).
Proof.
  unfold copy2.
  exact (stages_bind _ _ _ _ (stages_call _) (stages_stage path (Copy name))).
Qed.

Lemma stages_write_file k path c :
  stages (write_file k path c) (tree_put path c).
Proof.
  unfold write_file.
  exact (stages_bind _ _ _ _ (stages_call _) (stages_stage path c)).
Qed.

Lemma ask_run {A : Type} x method (f : APK -> result A) a d :
  apk x = Some a -> ask x method f d = (f a, d).
Proof. unfold ask. now intros ->. Qed.

Section Staging.

Variables (k : Sink) (x : XAPK) (a : APK) (p src : string).
Hypothesis apk_ok : apk x = Some a.
Hypothesis package_ok : get_package a = Ok p.
Hypothesis src_ok : apk_src x = Some src.

Lemma stages_save_apk :
  stages (save_apk k x) (tree_put (p ++ ".apk") (Copy src)).
Proof.
  intros d r d' H. unfold save_apk in H.
  unfold io_bind at 1 in H. cbn [io_print] in H.
  unfold io_bind at 1 in H. rewrite (ask_run x _ _ a), package_ok in H
    by exact apk_ok.
  rewrite src_ok in H.
  pose proof (stages_bind _ _ _ _ (stages_copy2 k src (p ++ ".apk"))
                (stages_print "APK: OK") _ _ _ H) as (N & Z & T).
  cbn in N, Z, T. split; [exact N | split; [exact Z | exact T]].
Qed.

Lemma stages_save_obb f :
  stages (save_obb k x f)
         (fun t => tree_put ("Android/obb/" ++ p ++ "/" ++ f) (Copy f) t).
Proof.
  intros d r d' H. unfold save_obb in H.
  unfold io_bind at 1 in H. cbn [io_print] in H.
  unfold io_bind at 1 in H. rewrite (ask_run x _ _ a), package_ok in H
    by exact apk_ok.
  pose proof (stages_bind _ _ _ _ (stages_call _)
                (stages_bind _ _ _ _
                   (stages_copy2 k f ("Android/obb/" ++ p ++ "/" ++ f))
                   (stages_print (f ++ ": OK"))) _ _ _ H) as (N & Z & T).
  cbn in N, Z, T. split; [exact N | split; [exact Z | exact T]].
Qed.

Lemma stages_save_split f :
  stages (save_split k f) (fun t => tree_put f (Copy f) t).
Proof.
  unfold save_split.
  exact (stages_bind _ _ _ _ (stages_print _)
           (stages_bind _ _ _ _ (stages_copy2 k f f) (stages_print _))).
Qed.

Lemma stages_save_icon :
  stages (save_icon k x)
         (fun t => match icon x with
                   | Some (b :: bs) => tree_put "icon.png" (Bytes (b :: bs)) t
                   | _ => t
                   end).
Proof.
  unfold save_icon. destruct (icon x) as [[| b bs] |].
  - intros d r d' H. injection H as <- <-.
    repeat split; trivial; try (now exists t); congruence.
  - exact (stages_bind _ _ _ _ (stages_print _)
             (stages_bind _ _ _ _ (stages_write_file k _ _) (stages_print _))).
  - intros d r d' H. injection H as <- <-.
    repeat split; trivial; try (now exists t); congruence.
Qed.

Lemma stages_save_manifest :
  stages (save_manifest k x) (tree_put "manifest.json" (Json (manifest x))).
Proof.
  unfold save_manifest.
  exact (stages_bind _ _ _ _ (stages_print _)
           (stages_bind _ _ _ _ (stages_write_file k _ _) (stages_print _))).
Qed.

Lemma finishes_bind zip_path m f rest t final :
  stages m f ->
  finishes k zip_path rest (f t) final ->
  finishes k zip_path (io_bind m (fun _ => rest)) t final.
Proof.
  intros Hm Hrest d r d' Hd H. unfold io_bind in H.
  destruct (m d) as [[[] | e] d1] eqn:E.
  - destruct (Hm _ _ _ E) as (N1 & Z1 & T1).
    destruct (T1 t Hd) as (_ & F1).
    destruct (Hrest d1 r d' (F1 eq_refl) H) as (N2 & X2 & C2).
    rewrite Z1, N1 in *. now repeat split.
  - injection H as <- <-. destruct (Hm _ _ _ E) as (N1 & Z1 & T1).
    destruct (T1 t Hd) as (X1 & _).
    split; [exact N1 |]. split; [exact X1 |].
    left. split; [exact Z1 | discriminate].
Qed.

Lemma finishes_zip zip_path t : finishes k zip_path (save_zip k zip_path) t t.
Proof.
  intros d r d' Hd H. unfold save_zip in H.
  unfold io_bind at 1 in H. cbn [io_print] in H.
  destruct (zip_raises k zip_path) as [e |] eqn:Ez.
  - injection H as <- <-. cbn. split; [reflexivity |].
    split; [now exists t |]. right. left.
    repeat split; discriminate.
  - cbn in H. rewrite Hd in H. injection H as <- <-. cbn.
    split; [reflexivity |]. split; [now exists t |]. right. right. now split.
Qed.

(** The inner [try]: the archive is left alone, or left incomplete, or
    completed with the whole staging tree; and the staging directory
    is still there for the [finally] block. *)
Lemma stage_and_zip_spec zip_path :
  finishes k zip_path (stage_and_zip k x zip_path) [] (staged p src x).
Proof.
  unfold stage_and_zip.
  eapply finishes_bind; [exact stages_save_apk |].
  eapply finishes_bind;
    [exact (stages_for_each _ _ _ stages_save_obb) |].
  eapply finishes_bind;
    [exact (stages_for_each _ _ _ stages_save_split) |].
  eapply finishes_bind; [exact stages_save_icon |].
  eapply finishes_bind; [exact stages_save_manifest |].
  apply finishes_zip.
Qed.

End Staging.

Lemma returns_print line : returns (io_print line).
Proof. intros d t _. eexists. reflexivity. Qed.

Lemma returns_stage path c : returns (stage path c).
Proof. intros d t Hd. unfold stage. rewrite Hd. eexists. reflexivity. Qed.

Lemma returns_bind m m' f :
  stages m f -> returns m -> returns m' ->
  returns (io_bind m (fun _ => m')).
Proof.
  intros Sm Rm Rm' d t Hd. destruct (Rm d t Hd) as (d1 & E).
  destruct (Sm _ _ _ E) as (_ & _ & T). destruct (T t Hd) as (_ & F).
  destruct (Rm' d1 (f t) (F eq_refl)) as (d2 & E2).
  exists d2. unfold io_bind. now rewrite E.
Qed.

Lemma returns_for_each {A : Type} (body : A -> IO unit)
    (step : tree -> A -> tree) l :
  (forall x, stages (body x) (fun t => step t x)) ->
  (forall x, returns (body x)) ->
  returns (io_for_each l body).
Proof.
  intros Sb Rb. induction l as [| x l IH]; cbn [io_for_each].
  - intros d t _. now exists d.
  - exact (returns_bind _ _ _ (Sb x) (Rb x) IH).
Qed.

Section QuietStaging.

Variables (k : Sink) (x : XAPK) (a : APK) (p src : string).
Hypothesis apk_ok : apk x = Some a.
Hypothesis package_ok : get_package a = Ok p.
Hypothesis src_ok : apk_src x = Some src.
Hypothesis quiet_k : quiet k.

Lemma returns_copy2 name path : returns (copy2 k name path).
Proof.
  unfold copy2. destruct quiet_k as (_ & Hc & _). rewrite Hc.
  exact (returns_bind _ _ _ (stages_call None)
           (fun d t _ => ex_intro _ d eq_refl) (returns_stage _ _)).
Qed.

Lemma returns_write_file path c : returns (write_file k path c).
Proof.
  unfold write_file. destruct quiet_k as (_ & _ & _ & Hw & _). rewrite Hw.
  exact (returns_bind _ _ _ (stages_call None)
           (fun d t _ => ex_intro _ d eq_refl) (returns_stage _ _)).
Qed.

Lemma returns_save_apk : returns (save_apk k x).
Proof.
  intros d t Hd. unfold save_apk.
  unfold io_bind at 1. cbn [io_print].
  unfold io_bind at 1. rewrite (ask_run x _ _ a), package_ok by exact apk_ok.
  rewrite src_ok.
  refine (returns_bind _ _ _ (stages_copy2 k _ _) (returns_copy2 _ _)
            (returns_print _) _ t _).
  exact Hd.
Qed.

Lemma returns_save_obb f : returns (save_obb k x f).
Proof.
  intros d t Hd. unfold save_obb.
  unfold io_bind at 1. cbn [io_print].
  unfold io_bind at 1. rewrite (ask_run x _ _ a), package_ok by exact apk_ok.
  destruct quiet_k as (_ & _ & Hm & _). rewrite Hm.
  refine (returns_bind _ _ _ (stages_call None)
            (fun d t _ => ex_intro _ d eq_refl)
            (returns_bind _ _ _ (stages_copy2 k _ _) (returns_copy2 _ _)
               (returns_print _)) _ t _).
  exact Hd.
Qed.

Lemma returns_save_split f : returns (save_split k f).
Proof.
  unfold save_split.
  exact (returns_bind _ _ _ (stages_print _) (returns_print _)
           (returns_bind _ _ _ (stages_copy2 k _ _) (returns_copy2 _ _)
              (returns_print _))).
Qed.

Lemma returns_save_icon : returns (save_icon k x).
Proof.
  unfold save_icon. destruct (icon x) as [[| b bs] |].
  - intros d t _. now exists d.
  - exact (returns_bind _ _ _ (stages_print _) (returns_print _)
             (returns_bind _ _ _ (stages_write_file k _ _)
                (returns_write_file _ _) (returns_print _))).
  - intros d t _. now exists d.
Qed.

Lemma returns_save_manifest : returns (save_manifest k x).
Proof.
  unfold save_manifest.
  exact (returns_bind _ _ _ (stages_print _) (returns_print _)
           (returns_bind _ _ _ (stages_write_file k _ _)
              (returns_write_file _ _) (returns_print _))).
Qed.

Lemma returns_save_zip zip_path : returns (save_zip k zip_path).
Proof.
  intros d t Hd. unfold save_zip.
  destruct quiet_k as (_ & _ & _ & _ & Hz & _). rewrite Hz.
  unfold io_bind. cbn. rewrite Hd. eexists. reflexivity.
Qed.

Lemma stage_and_zip_returns zip_path : returns (stage_and_zip k x zip_path).
Proof.
  unfold stage_and_zip.
  eapply returns_bind;
    [exact (stages_save_apk k x a p src apk_ok package_ok src_ok)
    | exact returns_save_apk |].
  eapply returns_bind;
    [exact (stages_for_each _ _ _ (stages_save_obb k x a p apk_ok package_ok))
    | exact (returns_for_each _ _ _
               (stages_save_obb k x a p apk_ok package_ok) returns_save_obb) |].
  eapply returns_bind;
    [exact (stages_for_each _ _ _ (stages_save_split k))
    | exact (returns_for_each _ _ _ (stages_save_split k) returns_save_split) |].
  eapply returns_bind; [exact (stages_save_icon k x) | exact returns_save_icon |].
  eapply returns_bind;
    [exact (stages_save_manifest k x) | exact returns_save_manifest |].
  apply returns_save_zip.
Qed.

End QuietStaging.

(** ** The whole of [save] *)

Lemma cleanup_run k d :
  cleanup k d
  = match rmtree_raises k with
    | Some e =>
        (Raise e, mkSaveState (self_name d) (zip_dir d) (zip_file d)
                    (stdout d ++ ["Cleaning up temp directory..."]))
    | None =>
        (Ok tt, mkSaveState (self_name d) None (zip_file d)
                  ((stdout d ++ ["Cleaning up temp directory..."])
                   ++ ["Cleanup: OK"]))
    end.
Proof. unfold cleanup. now destruct (rmtree_raises k). Qed.

(** [save] on an object whose package answers, when the directory can
    be made: the inner [try] with its [finally], and the outer
    handler. *)
Lemma save_run k x d a p v src :
  apk x = Some a ->
  get_package a = Ok p ->
  get_androidversion_name a = Ok v ->
  apk_src x = Some src ->
  mkdtemp_raises k = None ->
  save k x d
  = match stage_and_zip k x (p ++ "_" ++ v ++ ".xapk")
            (staging_start (p ++ "_" ++ v ++ ".xapk") d) with
    | (r, d1) =>
        match cleanup k d1 with
        | (Ok _, d2) =>
            match r with
            | Ok u => (Ok u, d2)
            | Raise e => (Raise (saving_error e), d2)
            end
        | (Raise e, d2) => (Raise (saving_error e), d2)
        end
    end.
Proof.
  intros Ha Hp Hv Hs Hm.
  unfold save, io_try, save_body. rewrite Hs.
  unfold io_bind at 1. cbn [io_ret].
  unfold io_bind at 1. rewrite (ask_run x _ _ a), Hp by exact Ha.
  unfold io_bind at 1. rewrite (ask_run x _ _ a), Hv by exact Ha.
  unfold io_bind at 1. cbn [set_self_name].
  unfold io_bind at 1. rewrite Hm. cbn [io_call io_ret].
  unfold io_bind at 1. cbn [set_zip_dir self_name zip_dir zip_file stdout].
  unfold io_finally, staging_start.
  destruct (stage_and_zip k x _ _) as [r d1].
  destruct (cleanup k d1) as [[[] | e] d2]; [| reflexivity].
  now destruct r as [[] | e].
Qed.

(** Before the directory is made, [save] changes nothing but, at
    most, [self.name]. *)
Lemma save_early k x d r d' :
  save k x d = (r, d') ->
  (apk_src x = None
   \/ (forall a, apk x = Some a ->
                 is_ok (get_package a) && is_ok (get_androidversion_name a)
                 = false)
   \/ mkdtemp_raises k <> None) ->
  (exists e, r = Raise (saving_error e))
  /\ zip_dir d' = zip_dir d /\ zip_file d' = zip_file d.
Proof.
  unfold save, io_try, save_body. intros H Hcase.
  destruct (apk_src x) as [src |] eqn:Hs.
  2:{ cbn in H. injection H as <- <-. eauto. }
  unfold io_bind at 1 in H. cbn [io_ret] in H.
  unfold io_bind at 1 in H. unfold ask in H.
  destruct (apk x) as [a |] eqn:Ha.
  2:{ cbn in H. injection H as <- <-. eauto. }
  cbn [io_lift] in H.
  destruct (get_package a) as [p | e] eqn:Hp.
  2:{ cbn in H. injection H as <- <-. eauto. }
  unfold io_bind at 1 in H. cbn [io_lift] in H.
  destruct (get_androidversion_name a) as [v | e] eqn:Hv.
  2:{ cbn in H. injection H as <- <-. eauto. }
  unfold io_bind at 1 in H. cbn [set_self_name] in H.
  unfold io_bind at 1 in H.
  destruct (mkdtemp_raises k) as [e |] eqn:Hm.
  - cbn in H. injection H as <- <-. eauto.
  - exfalso. destruct Hcase as [Hc | [Hc | Hc]]; [discriminate | | congruence].
    specialize (Hc a eq_refl). rewrite Hp, Hv in Hc. discriminate.
Qed.

(** ** The staging tree *)

Lemma tree_get_put path q c t :
  tree_get path (tree_put q c t)
  = if String.eqb path q then Some c else tree_get path t.
Proof.
  induction t as [| [q' c'] t IH]; cbn [tree_put tree_get].
  - now destruct (String.eqb path q).
  - destruct (String.eqb_spec q q') as [-> | Hq]; cbn [tree_get].
    + now destruct (String.eqb path q').
    + rewrite IH. destruct (String.eqb_spec path q') as [-> | Hp];
        [| reflexivity].
      destruct (String.eqb_spec q' q); [congruence | reflexivity].
Qed.

Section Folded.

Variables (g : string -> string) (h : string -> content).

Lemma fold_get_notin path l : forall t,
  (forall f, In f l -> g f <> path) ->
  tree_get path (fold_left (fun t f => tree_put (g f) (h f) t) l t) = tree_get path t.
Proof.
  induction l as [| x l IH]; intros t Hn; [reflexivity |].
  cbn [fold_left].
  rewrite IH by (intros f Hf; apply Hn; now right).
  rewrite tree_get_put.
  destruct (String.eqb_spec path (g x)) as [E | _]; [| reflexivity].
  exfalso. apply (Hn x); [now left | now symmetry].
Qed.

Lemma fold_get_in l : forall t f,
  (forall f f', In f l -> In f' l -> g f = g f' -> h f = h f') ->
  In f l ->
  tree_get (g f) (fold_left (fun t f => tree_put (g f) (h f) t) l t) = Some (h f).
Proof.
  induction l as [| x l IH]; intros t f Hc Hf; [contradiction |].
  cbn [fold_left].
  destruct (in_dec string_dec (g f) (map g l)) as [Hin | Hnot].
  - apply in_map_iff in Hin. destruct Hin as (f' & Eg & Hf').
    rewrite <- Eg.
    rewrite IH; [| intros; apply Hc; auto; now right | exact Hf'].
    f_equal. apply Hc; [now right | exact Hf | exact Eg].
  - destruct Hf as [<- | Hf];
      [| exfalso; apply Hnot; now apply in_map].
    change (tree_get (g x) (fold_left (fun t f => tree_put (g f) (h f) t) l (tree_put (g x) (h x) t)) = Some (h x)).
    rewrite fold_get_notin.
    + now rewrite tree_get_put, String.eqb_refl.
    + intros f Hf E. apply Hnot. rewrite <- E. now apply in_map.
Qed.

Lemma fold_get_inv path c l : forall t,
  tree_get path (fold_left (fun t f => tree_put (g f) (h f) t) l t) = Some c ->
  (exists f, In f l /\ path = g f /\ c = h f) \/ tree_get path t = Some c.
Proof.
  induction l as [| x l IH]; intros t H; [now right |].
  cbn [fold_left] in H. apply IH in H.
  destruct H as [(f & Hf & E1 & E2) | H].
  - left. exists f. split; [now right | now split].
  - rewrite tree_get_put in H.
    destruct (String.eqb_spec path (g x)) as [E | _]; [| now right].
    left. exists x. split; [now left |]. split; [exact E | congruence].
Qed.

End Folded.

Lemma append_cancel a b c : (a ++ b = a ++ c)%string -> b = c.
Proof.
  induction a as [| x a IH]; cbn [append]; intros H; [exact H |].
  injection H as H. now apply IH.
Qed.

Lemma extension_obb_path p f :
  Pathlib.fnmatch "*.obb" f = true ->
  extension ("Android/obb/" ++ p ++ "/" ++ f) = ".obb".
Proof.
  intros H. apply fnmatch_obb in H. destruct H as (pre & ->).
  replace ("Android/obb/" ++ p ++ "/" ++ pre ++ ".obb")%string
    with (("Android/obb/" ++ p ++ "/" ++ pre) ++ ".obb")%string
    by (rewrite !append_assoc; reflexivity).
  now apply extension_app.
Qed.

Lemma extension_apk p : extension (p ++ ".apk") = ".apk".
Proof. now apply extension_app. Qed.

Lemma split_head f :
  Pathlib.fnmatch "config.*.apk" f = true
  \/ Pathlib.fnmatch "asset.*.apk" f = true ->
  exists rest, f = String "c" rest \/ f = String "a" rest.
Proof.
  intros [H | H].
  - apply fnmatch_config in H. destruct H as (mid & ->). eexists. now left.
  - apply fnmatch_asset in H. destruct H as (mid & ->). eexists. now right.
Qed.

(** ** What [save] does *)

(** [save] either stops before it makes the staging directory, or
    runs the inner [try] and its [finally]. *)
Lemma save_cases k x d :
  (exists e, save k x d
             = (Raise (saving_error e),
                mkSaveState (self_name (snd (save k x d))) (zip_dir d)
                            (zip_file d) (stdout d)))
  \/ (exists a p v src,
        apk x = Some a /\ get_package a = Ok p
        /\ get_androidversion_name a = Ok v /\ apk_src x = Some src
        /\ mkdtemp_raises k = None).
Proof.
  destruct (apk_src x) as [src |] eqn:Hs.
  2:{ left. unfold save, io_try, save_body. rewrite Hs. cbn.
      destruct d. eexists. reflexivity. }
  destruct (apk x) as [a |] eqn:Ha.
  2:{ left. unfold save, io_try, save_body, ask. rewrite Hs, Ha. cbn.
      destruct d. eexists. reflexivity. }
  destruct (get_package a) as [p | e1] eqn:Hp.
  2:{ left. unfold save, io_try, save_body, ask. rewrite Hs, Ha. cbn.
      rewrite Hp. cbn. destruct d. eexists. reflexivity. }
  destruct (get_androidversion_name a) as [v | e1] eqn:Hv.
  2:{ left. unfold save, io_try, save_body, ask. rewrite Hs, Ha. cbn.
      rewrite Hp. cbn. rewrite Hv. cbn. destruct d. eexists. reflexivity. }
  destruct (mkdtemp_raises k) as [e1 |] eqn:Hm.
  1:{ left. unfold save, io_try, save_body, ask. rewrite Hs, Ha. cbn.
      rewrite Hp. cbn. rewrite Hv. cbn. rewrite Hm. cbn.
      eexists. reflexivity. }
  right. now exists a, p, v, src.
Qed.

Lemma save_ok_inv k x d d' :
  save k x d = (Ok tt, d') ->
  exists a p v src,
    apk x = Some a
    /\ get_package a = Ok p
    /\ get_androidversion_name a = Ok v
    /\ apk_src x = Some src
    /\ self_name d' = Some (p ++ "_" ++ v ++ ".xapk")%string
    /\ zip_dir d' = None
    /\ zip_file d' = Complete (staged p src x).
Proof.
  intros H. destruct (save_cases k x d) as [(e & E) | Hrun];
    [rewrite E in H; discriminate |].
  destruct Hrun as (a & p & v & src & Ha & Hp & Hv & Hs & Hm).
  rewrite (save_run k x d a p v src Ha Hp Hv Hs Hm) in H.
  destruct (stage_and_zip k x _ _) as [r d1] eqn:E.
  destruct (stage_and_zip_spec k x a p src Ha Hp Hs _
              (staging_start (p ++ "_" ++ v ++ ".xapk") d) _ _ eq_refl E)
    as (N & _ & C).
  rewrite cleanup_run in H.
  destruct (rmtree_raises k); [discriminate |].
  destruct r as [[] | e]; [| discriminate].
  injection H as <-. cbn [self_name zip_dir zip_file].
  exists a, p, v, src. repeat split; trivial.
  destruct C as [(_ & C) | [(_ & C & _) | (C & _)]]; try congruence.
Qed.

(** X9. When [save] returns, the object had its base package and its
    package answered; [self.name] is [<package>_<version name>.xapk];
    the archive is complete and holds exactly the staging tree; and
    the staging directory is gone. *)
Theorem X9_save_returns k x d d' :
  save k x d = (Ok tt, d') ->
  exists a p v src,
    apk x = Some a
    /\ get_package a = Ok p
    /\ get_androidversion_name a = Ok v
    /\ apk_src x = Some src
    /\ self_name d' = Some (p ++ "_" ++ v ++ ".xapk")%string
    /\ zip_dir d' = None
    /\ zip_file d' = Complete (staged p src x).
Proof. exact (save_ok_inv k x d d'). Qed.

Lemma X9_save_returns_witness :
  exists a p v src,
    apk (described w_obb example_app m_obb) = Some a
    /\ get_package a = Ok p
    /\ get_androidversion_name a = Ok v
    /\ apk_src (described w_obb example_app m_obb) = Some src
    /\ self_name (snd (save sink_ok (described w_obb example_app m_obb)
                         (at_start [])))
       = Some (p ++ "_" ++ v ++ ".xapk")%string
    /\ zip_dir (snd (save sink_ok (described w_obb example_app m_obb)
                       (at_start []))) = None
    /\ zip_file (snd (save sink_ok (described w_obb example_app m_obb)
                        (at_start [])))
       = Complete (staged p src (described w_obb example_app m_obb)).
Proof.
  apply (X9_save_returns sink_ok (described w_obb example_app m_obb)
           (at_start [])).
  vm_compute. reflexivity.
Defined.

(** X10. An object that the constructor returned can always be saved
    when no call to the outside raises: its base package is set and
    its package has already answered what [save] asks again. *)
Theorem X10_constructed_object_saves w x k d :
  XAPK_new w = Ok x ->
  quiet k ->
  exists d', save k x d = (Ok tt, d').
Proof.
  intros Hx Hq.
  destruct (constructed w x Hx) as (a & m & p & v & _ & _ & A & S & Hp & Hv & _).
  pose proof Hq as (Hmk & _ & _ & _ & _ & Hrm).
  destruct (stage_and_zip_returns k x a p "base.apk" A Hp S Hq
              (p ++ "_" ++ v ++ ".xapk")
              (staging_start (p ++ "_" ++ v ++ ".xapk") d) [] eq_refl)
    as (d1 & E).
  rewrite (save_run k x d a p v "base.apk" A Hp Hv S Hmk).
  rewrite E, cleanup_run, Hrm. eexists. reflexivity.
Qed.

Lemma X10_constructed_object_saves_witness :
  exists d', save sink_ok (described w_obb example_app m_obb) (at_start [])
             = (Ok tt, d').
Proof.
  apply (X10_constructed_object_saves w_obb).
  - vm_compute. reflexivity.
  - now repeat split.
Defined.

(** X11. [save] never lets through anything but a [RuntimeError]
    whose text is [Saving: ] followed by the text of the cause; and
    whatever its outcome, the archive is one of three things: as it
    was; opened and left incomplete, which only happens when the
    archiver raised; or complete with the whole staging tree.  A
    failure while staging therefore never leaves an archive with files
    missing. *)
Theorem X11_save_outcomes k x d r d' :
  save k x d = (r, d') ->
  (forall e,
     r = Raise e ->
     exc_class e = RuntimeError
     /\ exists cause, exc_str e = ("Saving: " ++ exc_str cause)%string)
  /\ (zip_file d' = zip_file d
      \/ (zip_file d' = Incomplete /\ r <> Ok tt
          /\ exists zip_path, zip_raises k zip_path <> None)
      \/ (exists p src, zip_file d' = Complete (staged p src x))).
Proof.
  intros H. destruct (save_cases k x d) as [(e & E) | Hrun].
  - rewrite E in H. injection H as <- <-. split.
    + intros e' He'. injection He' as <-. split; [reflexivity | now exists e].
    + now left.
  - destruct Hrun as (a & p & v & src & Ha & Hp & Hv & Hs & Hm).
    rewrite (save_run k x d a p v src Ha Hp Hv Hs Hm) in H.
    destruct (stage_and_zip k x _ _) as [r1 d1] eqn:E.
    destruct (stage_and_zip_spec k x a p src Ha Hp Hs _
                (staging_start (p ++ "_" ++ v ++ ".xapk") d) _ _ eq_refl E)
      as (_ & _ & C).
    rewrite cleanup_run in H.
    assert (Z : zip_file d' = zip_file d1).
    { destruct (rmtree_raises k); [now injection H as _ <- |].
      destruct r1 as [[] | e]; now injection H as _ <-. }
    split.
    + intros e' ->. destruct (rmtree_raises k) as [e2 |].
      * injection H as <- _. split; [reflexivity | now exists e2].
      * destruct r1 as [[] | e]; [discriminate |].
        injection H as <- _. split; [reflexivity | now exists e].
    + rewrite Z. destruct C as [(C & _) | [(C & N & Hz) | (C & _)]].
      * now left.
      * right. left. split; [exact C |]. split; [| eauto].
        intros ->. destruct (rmtree_raises k); [discriminate |].
        destruct r1 as [[] | e]; [now apply N | discriminate].
      * right. right. eauto.
Qed.

Lemma X11_save_outcomes_witness :
  fst (save (sink_copy_fails "asset.pack1.apk")
         (described w_full example_app_icon m_full) (at_start []))
  = Raise (mkExc RuntimeError "Saving: copy failed")
  /\ zip_file (snd (save (sink_copy_fails "asset.pack1.apk")
                      (described w_full example_app_icon m_full)
                      (at_start [])))
     = Untouched.
Proof.
  destruct (X11_save_outcomes (sink_copy_fails "asset.pack1.apk")
              (described w_full example_app_icon m_full) (at_start [])
              (fst (save (sink_copy_fails "asset.pack1.apk")
                      (described w_full example_app_icon m_full)
                      (at_start [])))
              (snd (save (sink_copy_fails "asset.pack1.apk")
                      (described w_full example_app_icon m_full)
                      (at_start []))))
    as (_ & _).
  - vm_compute. reflexivity.
  - split; vm_compute; reflexivity.
Defined.

(** X12. The staging directory does not outlive [save] when its
    removal does not raise: whether [save] returns or raises, and
    wherever it raises, no staging directory is left. *)
Theorem X12_staging_directory_is_removed k x d r d' :
  save k x d = (r, d') ->
  zip_dir d = None ->
  rmtree_raises k = None ->
  zip_dir d' = None.
Proof.
  intros H Hd Hr. destruct (save_cases k x d) as [(e & E) | Hrun].
  - rewrite E in H. now injection H as _ <-.
  - destruct Hrun as (a & p & v & src & Ha & Hp & Hv & Hs & Hm).
    rewrite (save_run k x d a p v src Ha Hp Hv Hs Hm) in H.
    destruct (stage_and_zip k x _ _) as [r1 d1].
    rewrite cleanup_run, Hr in H.
    destruct r1 as [[] | e]; now injection H as _ <-.
Qed.

Lemma X12_staging_directory_is_removed_witness :
  zip_dir (snd (save (sink_copy_fails "asset.pack1.apk")
                  (described w_full example_app_icon m_full) (at_start [])))
  = None.
Proof.
  apply (X12_staging_directory_is_removed
           (sink_copy_fails "asset.pack1.apk")
           (described w_full example_app_icon m_full) (at_start [])
           (fst (save (sink_copy_fails "asset.pack1.apk")
                   (described w_full example_app_icon m_full)
                   (at_start [])))).
  - vm_compute. reflexivity.
  - reflexivity.
  - reflexivity.
Defined.

(** X13. When the removal of the staging directory raises, its
    exception is the one that [save] reports, even when the archive
    has been completed or another step had raised before; and the
    staging directory is left behind. *)
Theorem X13_failed_cleanup_masks_the_outcome k x d a p v src e :
  apk x = Some a ->
  get_package a = Ok p ->
  get_androidversion_name a = Ok v ->
  apk_src x = Some src ->
  mkdtemp_raises k = None ->
  rmtree_raises k = Some e ->
  fst (save k x d) = Raise (saving_error e)
  /\ zip_dir (snd (save k x d)) <> None.
Proof.
  intros Ha Hp Hv Hs Hm Hr.
  rewrite (save_run k x d a p v src Ha Hp Hv Hs Hm).
  destruct (stage_and_zip k x _ _) as [r1 d1] eqn:E.
  destruct (stage_and_zip_spec k x a p src Ha Hp Hs _
              (staging_start (p ++ "_" ++ v ++ ".xapk") d) _ _ eq_refl E)
    as (_ & (t' & Ht) & _).
  rewrite cleanup_run, Hr. cbn. split; [reflexivity | congruence].
Qed.

Lemma X13_failed_cleanup_masks_the_outcome_witness :
  fst (save (sink_copy_and_rmtree_fail "asset.pack1.apk")
         (described w_full example_app_icon m_full) (at_start []))
  = Raise (mkExc RuntimeError "Saving: rmtree failed")
  /\ zip_dir (snd (save (sink_copy_and_rmtree_fail "asset.pack1.apk")
                     (described w_full example_app_icon m_full)
                     (at_start [])))
     <> None.
Proof.
  apply (X13_failed_cleanup_masks_the_outcome
           (sink_copy_and_rmtree_fail "asset.pack1.apk")
           (described w_full example_app_icon m_full) (at_start [])
           example_app_icon "com.example.app" "1.0" "base.apk"
           (mkExc OtherException "rmtree failed"));
    reflexivity.
Defined.

(** ** What the archive holds *)

Lemma present_put path q c t :
  tree_get path (tree_put q c t) <> None
  <-> path = q \/ tree_get path t <> None.
Proof.
  rewrite tree_get_put.
  destruct (String.eqb_spec path q) as [-> | Hn].
  - split; [now left | discriminate].
  - split; [now right | intros [H | H]; [contradiction | exact H]].
Qed.

Lemma present_fold (g : string -> string) (h : string -> content) path l :
  forall t,
    tree_get path (fold_left (fun t f => tree_put (g f) (h f) t) l t) <> None
    <-> In path (map g l) \/ tree_get path t <> None.
Proof.
  induction l as [| x l IH]; intros t; cbn [fold_left map In].
  - tauto.
  - rewrite IH, present_put. intuition congruence.
Qed.

Lemma staged_paths p src x path :
  tree_get path (staged p src x) <> None
  <-> In path ((p ++ ".apk")%string :: split_config_files x
               ++ map (obb_path p) (obb_files x))
      \/ path = "manifest.json"
      \/ (path = "icon.png" /\ exists b bs, icon x = Some (b :: bs)).
Proof.
  unfold staged. rewrite present_put.
  assert (I : forall t,
    tree_get path
      match icon x with
      | Some (b :: bs) => tree_put "icon.png" (Bytes (b :: bs)) t
      | _ => t
      end <> None
    <-> (path = "icon.png" /\ exists b bs, icon x = Some (b :: bs))
        \/ tree_get path t <> None).
  { intros t. destruct (icon x) as [[| b bs] |].
    - split; [now right | intros [(_ & b & bs & H) | H]; [discriminate | exact H]].
    - rewrite present_put. split.
      + intros [-> | H]; [left; split; [reflexivity | eauto] | now right].
      + intros [(-> & _) | H]; [now left | now right].
    - split; [now right | intros [(_ & b & bs & H) | H]; [discriminate | exact H]]. }
  rewrite I.
  rewrite (present_fold (fun f => f) Copy), map_id.
  rewrite (present_fold (fun f => ("Android/obb/" ++ p ++ "/" ++ f)%string) Copy).
  rewrite present_put. cbn [tree_get In].
  change (map (fun f => ("Android/obb/" ++ p ++ "/" ++ f)%string) (obb_files x))
    with (map (obb_path p) (obb_files x)).
  rewrite in_app_iff. intuition congruence.
Qed.

(** X14. After a run of the constructor and of [save] that both
    return, the archive is complete; its [manifest.json] is the
    manifest of the object; and its paths are exactly the files that
    the manifest lists in [split_apks] and [expansions], together with
    [manifest.json] and, when the object has icon bytes that are not
    empty, [icon.png]. *)
Theorem X14_archive_holds_what_manifest_lists w x k d d' :
  XAPK_new w = Ok x ->
  save k x d = (Ok tt, d') ->
  exists m t,
    manifest x = Some m
    /\ zip_file d' = Complete t
    /\ tree_get "manifest.json" t = Some (Json (Some m))
    /\ forall path,
         tree_get path t <> None
         <-> In path (listed_files m)
             \/ path = "manifest.json"
             \/ (path = "icon.png" /\ exists b bs, icon x = Some (b :: bs)).
Proof.
  intros Hx H.
  destruct (constructed w x Hx)
    as (a & m & p & v & Ex & _ & A & S & Hp & Hv & _ & L).
  destruct (save_ok_inv k x d d' H)
    as (a' & p' & v' & src & A' & Hp' & _ & S' & _ & _ & Z).
  assert (a' = a) by congruence. subst a'.
  assert (p' = p) by congruence. subst p'.
  assert (M : manifest x = Some m).
  { rewrite Ex. now destruct (described_fields w a m) as (_ & _ & _ & _ & M). }
  exists m, (staged p src x). split; [exact M |]. split; [exact Z |]. split.
  - unfold staged. now rewrite tree_get_put, String.eqb_refl, M.
  - intros path. rewrite L. apply staged_paths.
Qed.

Lemma fold_get_cases (g : string -> string) (h : string -> content) path l :
  forall t,
    (exists f, In f l /\ g f = path
               /\ tree_get path
                    (fold_left (fun t f => tree_put (g f) (h f) t) l t)
                  = Some (h f))
    \/ (~ In path (map g l)
        /\ tree_get path (fold_left (fun t f => tree_put (g f) (h f) t) l t)
           = tree_get path t).
Proof.
  induction l as [| x l IH]; intros t; cbn [fold_left map In].
  - right. now split.
  - destruct (IH (tree_put (g x) (h x) t)) as [(f & Hf & Eg & E) | (Hn & E)].
    + left. exists f. split; [now right | now split].
    + rewrite tree_get_put in E.
      destruct (String.eqb_spec path (g x)) as [Ex | Hx].
      * left. exists x. split; [now left |]. split; [now symmetry | exact E].
      * right. split; [| exact E]. intros [H | H]; [congruence | contradiction].
Qed.

Section Constructed.

Variables (w : World) (x : XAPK) (p : string).
Hypothesis obb_names :
  forall f, In f (obb_files x) -> Pathlib.fnmatch "*.obb" f = true.
Hypothesis split_names :
  forall f, In f (split_config_files x) ->
            Pathlib.fnmatch "config.*.apk" f = true
            \/ Pathlib.fnmatch "asset.*.apk" f = true.

Lemma staged_get_file src path :
  path <> "manifest.json" ->
  path <> "icon.png" ->
  tree_get path (staged p src x)
  = tree_get path
      (fold_left (fun t f => tree_put f (Copy f) t) (split_config_files x)
         (fold_left
            (fun t f => tree_put ("Android/obb/" ++ p ++ "/" ++ f) (Copy f) t)
            (obb_files x)
            (tree_put (p ++ ".apk") (Copy src) []))).
Proof.
  intros Hm Hi. unfold staged. rewrite tree_get_put.
  destruct (String.eqb_spec path "manifest.json"); [contradiction |].
  destruct (icon x) as [[| b bs] |]; try reflexivity.
  rewrite tree_get_put.
  now destruct (String.eqb_spec path "icon.png").
Qed.

Lemma split_not_special f :
  In f (split_config_files x) ->
  f <> "manifest.json" /\ f <> "icon.png" /\ f <> "base.apk"
  /\ forall o, f <> obb_path p o.
Proof.
  intros Hf. destruct (split_head f (split_names f Hf)) as (rest & [-> | ->]);
    repeat split; try discriminate; intros o; discriminate.
Qed.

Lemma staged_obb src f :
  In f (obb_files x) ->
  tree_get (obb_path p f) (staged p src x) = Some (Copy f).
Proof.
  intros Hf. rewrite staged_get_file by discriminate.
  rewrite (fold_get_notin (fun f => f) Copy).
  - apply (fold_get_in (fun f => ("Android/obb/" ++ p ++ "/" ++ f)%string) Copy);
      [| exact Hf].
    intros f1 f2 _ _ E. f_equal.
    apply (append_cancel ("Android/obb/" ++ p ++ "/")).
    now rewrite !append_assoc.
  - intros s Hs E. destruct (split_not_special s Hs) as (_ & _ & _ & N).
    exact (N f E).
Qed.

Lemma staged_split src f :
  In f (split_config_files x) ->
  tree_get f (staged p src x) = Some (Copy f).
Proof.
  intros Hf. destruct (split_not_special f Hf) as (N1 & N2 & _).
  rewrite staged_get_file by assumption.
  apply (fold_get_in (fun f => f) Copy); [| exact Hf].
  now intros f1 f2 _ _ ->.
Qed.

Lemma apk_not_special :
  (p ++ ".apk")%string <> "manifest.json"
  /\ (p ++ ".apk")%string <> "icon.png"
  /\ forall o, In o (obb_files x) -> obb_path p o <> (p ++ ".apk")%string.
Proof.
  pose proof (extension_apk p) as E.
  repeat split.
  - intros H. rewrite H in E. discriminate.
  - intros H. rewrite H in E. discriminate.
  - intros o Ho H.
    pose proof (extension_obb_path p o (obb_names o Ho)) as E'.
    unfold obb_path in H. rewrite H in E'. congruence.
Qed.

Lemma staged_base src :
  ~ In (p ++ ".apk")%string (split_config_files x) ->
  tree_get (p ++ ".apk") (staged p src x) = Some (Copy src).
Proof.
  intros Hn. destruct apk_not_special as (N1 & N2 & N3).
  rewrite staged_get_file by assumption.
  rewrite (fold_get_notin (fun f => f) Copy)
    by (intros f Hf E; apply Hn; now rewrite <- E).
  rewrite (fold_get_notin (fun f => ("Android/obb/" ++ p ++ "/" ++ f)%string)
             Copy) by exact N3.
  now rewrite tree_get_put, String.eqb_refl.
Qed.

Lemma staged_icon src :
  tree_get "icon.png" (staged p src x)
  = match icon x with
    | Some (b :: bs) => Some (Bytes (b :: bs))
    | _ => None
    end.
Proof.
  destruct apk_not_special as (_ & N2 & _).
  assert (E : tree_get "icon.png"
    (fold_left (fun t f => tree_put f (Copy f) t) (split_config_files x)
       (fold_left
          (fun t f => tree_put ("Android/obb/" ++ p ++ "/" ++ f) (Copy f) t)
          (obb_files x) (tree_put (p ++ ".apk") (Copy src) []))) = None).
  { rewrite (fold_get_notin (fun f => f) Copy).
    - rewrite (fold_get_notin
                 (fun f => ("Android/obb/" ++ p ++ "/" ++ f)%string) Copy)
        by (intros; discriminate).
      rewrite tree_get_put.
      destruct (String.eqb_spec "icon.png" (p ++ ".apk")); [| reflexivity].
      congruence.
    - intros f Hf E. destruct (split_not_special f Hf) as (_ & N & _).
      contradiction. }
  unfold staged. rewrite tree_get_put. cbn [String.eqb Ascii.eqb Bool.eqb].
  destruct (icon x) as [[| b bs] |]; try exact E.
  now rewrite tree_get_put, String.eqb_refl.
Qed.

(** When a split has the name that the base package takes in the
    archive, the copy of the base package is nowhere in the tree. *)
Lemma staged_clash path :
  In (p ++ ".apk")%string (split_config_files x) ->
  tree_get path (staged p "base.apk" x) <> Some (Copy "base.apk").
Proof.
  intros Hin H. unfold staged in H.
  rewrite tree_get_put in H.
  destruct (String.eqb path "manifest.json"); [discriminate |].
  assert (H' : tree_get path
    (fold_left (fun t f => tree_put f (Copy f) t) (split_config_files x)
       (fold_left
          (fun t f => tree_put ("Android/obb/" ++ p ++ "/" ++ f) (Copy f) t)
          (obb_files x) (tree_put (p ++ ".apk") (Copy "base.apk") [])))
    = Some (Copy "base.apk")).
  { destruct (icon x) as [[| b bs] |]; try exact H.
    rewrite tree_get_put in H.
    destruct (String.eqb path "icon.png"); [discriminate | exact H]. }
  clear H.
  destruct (fold_get_cases (fun f => f) Copy path (split_config_files x)
              (fold_left
                 (fun t f => tree_put ("Android/obb/" ++ p ++ "/" ++ f)
                                      (Copy f) t)
                 (obb_files x) (tree_put (p ++ ".apk") (Copy "base.apk") [])))
    as [(f & Hf & _ & E) | (Hn & E)]; rewrite E in H'; clear E.
  - injection H' as ->.
    destruct (split_not_special _ Hf) as (_ & _ & N & _). congruence.
  - rewrite map_id in Hn.
    destruct (fold_get_cases
                (fun f => ("Android/obb/" ++ p ++ "/" ++ f)%string) Copy path
                (obb_files x) (tree_put (p ++ ".apk") (Copy "base.apk") []))
      as [(f & Hf & _ & E) | (_ & E)]; rewrite E in H'; clear E.
    + injection H' as ->. pose proof (obb_names _ Hf). discriminate.
    + rewrite tree_get_put in H'.
      destruct (String.eqb_spec path (p ++ ".apk")) as [-> | _];
        [contradiction | discriminate].
Qed.

End Constructed.

Lemma constructed_names w x :
  XAPK_new w = Ok x ->
  (forall f, In f (obb_files x) -> Pathlib.fnmatch "*.obb" f = true)
  /\ (forall f, In f (split_config_files x) ->
                Pathlib.fnmatch "config.*.apk" f = true
                \/ Pathlib.fnmatch "asset.*.apk" f = true).
Proof.
  intros Hx. destruct (constructed w x Hx) as (a & m & p & v & -> & _).
  destruct (described_fields w a m) as (_ & _ & -> & -> & _).
  unfold glob. split.
  - intros f Hf. now apply filter_In in Hf.
  - intros f Hf. apply in_app_iff in Hf.
    destruct Hf as [Hf | Hf]; apply filter_In in Hf; tauto.
Qed.

(** X15. After a run of the constructor and of [save] that both
    return, the archive holds every expansion file under
    [Android/obb/<package>/<name>] and every split under its own name,
    each a copy of the file of the folder; the icon, under [icon.png],
    exactly when the object has icon bytes that are not empty; and,
    when no split is named [<package>.apk], the base package under
    that name. *)
Theorem X15_archive_contents w x k d d' :
  XAPK_new w = Ok x ->
  save k x d = (Ok tt, d') ->
  exists a p t,
    apk x = Some a
    /\ get_package a = Ok p
    /\ zip_file d' = Complete t
    /\ (forall f, In f (obb_files x) ->
                  tree_get ("Android/obb/" ++ p ++ "/" ++ f) t = Some (Copy f))
    /\ (forall f, In f (split_config_files x) ->
                  tree_get f t = Some (Copy f))
    /\ tree_get "icon.png" t
       = match icon x with
         | Some (b :: bs) => Some (Bytes (b :: bs))
         | _ => None
         end
    /\ (~ In (p ++ ".apk")%string (split_config_files x) ->
        tree_get (p ++ ".apk") t = Some (Copy "base.apk")).
Proof.
  intros Hx H.
  destruct (constructed_names w x Hx) as (No & Ns).
  destruct (constructed w x Hx) as (a & m & p & v & _ & _ & A & S & Hp & _).
  destruct (save_ok_inv k x d d' H)
    as (a' & p' & v' & src & A' & Hp' & _ & S' & _ & _ & Z).
  assert (a' = a) by congruence. subst a'.
  assert (p' = p) by congruence. subst p'.
  assert (src = "base.apk") by congruence. subst src.
  exists a, p, (staged p "base.apk" x).
  split; [exact A |]. split; [exact Hp |]. split; [exact Z |].
  split; [intros f Hf; now apply (staged_obb x p Ns) |].
  split; [intros f Hf; now apply staged_split |].
  split; [now apply staged_icon |].
  now apply staged_base.
Qed.

(** X16. When a split of the folder is named [<package>.apk], the
    name that the base package takes in the archive, the split
    replaces it: after a run of the constructor and of [save] that
    both return, that path of the archive holds the split, and no path
    of the archive holds the base package. *)
Theorem X16_split_can_replace_base_package w x k d d' :
  XAPK_new w = Ok x ->
  save k x d = (Ok tt, d') ->
  exists a p t,
    apk x = Some a
    /\ get_package a = Ok p
    /\ zip_file d' = Complete t
    /\ (In (p ++ ".apk")%string (split_config_files x) ->
        tree_get (p ++ ".apk") t = Some (Copy (p ++ ".apk"))
        /\ forall path, tree_get path t <> Some (Copy "base.apk")).
Proof.
  intros Hx H.
  destruct (constructed_names w x Hx) as (No & Ns).
  destruct (constructed w x Hx) as (a & m & p & v & _ & _ & A & S & Hp & _).
  destruct (save_ok_inv k x d d' H)
    as (a' & p' & v' & src & A' & Hp' & _ & S' & _ & _ & Z).
  assert (a' = a) by congruence. subst a'.
  assert (p' = p) by congruence. subst p'.
  assert (src = "base.apk") by congruence. subst src.
  exists a, p, (staged p "base.apk" x).
  split; [exact A |]. split; [exact Hp |]. split; [exact Z |].
  intros Hin. split.
  - now apply staged_split.
  - intros path. now apply staged_clash.
Qed.

Lemma X14_archive_holds_what_manifest_lists_witness :
  exists m t,
    manifest x_full = Some m
    /\ zip_file (snd (save sink_ok x_full (at_start []))) = Complete t
    /\ tree_get "manifest.json" t = Some (Json (Some m))
    /\ forall path,
         tree_get path t <> None
         <-> In path (listed_files m)
             \/ path = "manifest.json"
             \/ (path = "icon.png"
                 /\ exists b bs, icon x_full = Some (b :: bs)).
Proof.
  apply (X14_archive_holds_what_manifest_lists w_full x_full sink_ok
           (at_start []) (snd (save sink_ok x_full (at_start [])))).
  - vm_compute. reflexivity.
  - vm_compute. reflexivity.
Defined.

Lemma X15_archive_contents_witness :
  exists a p t,
    apk x_full = Some a
    /\ get_package a = Ok p
    /\ zip_file (snd (save sink_ok x_full (at_start []))) = Complete t
    /\ (forall f, In f (obb_files x_full) ->
                  tree_get ("Android/obb/" ++ p ++ "/" ++ f) t = Some (Copy f))
    /\ (forall f, In f (split_config_files x_full) ->
                  tree_get f t = Some (Copy f))
    /\ tree_get "icon.png" t
       = match icon x_full with
         | Some (b :: bs) => Some (Bytes (b :: bs))
         | _ => None
         end
    /\ (~ In (p ++ ".apk")%string (split_config_files x_full) ->
        tree_get (p ++ ".apk") t = Some (Copy "base.apk")).
Proof.
  apply (X15_archive_contents w_full x_full sink_ok (at_start [])
           (snd (save sink_ok x_full (at_start [])))).
  - vm_compute. reflexivity.
  - vm_compute. reflexivity.
Defined.

Lemma X16_split_can_replace_base_package_witness :
  In "config.pack.apk" (split_config_files x_clash)
  /\ exists a p t,
       apk x_clash = Some a
       /\ get_package a = Ok p
       /\ zip_file (snd (save sink_ok x_clash (at_start []))) = Complete t
       /\ (In (p ++ ".apk")%string (split_config_files x_clash) ->
           tree_get (p ++ ".apk") t = Some (Copy (p ++ ".apk"))
           /\ forall path, tree_get path t <> Some (Copy "base.apk")).
Proof.
  split; [now left |].
  apply (X16_split_can_replace_base_package w_clash x_clash sink_ok
           (at_start []) (snd (save sink_ok x_clash (at_start [])))).
  - vm_compute. reflexivity.
  - vm_compute. reflexivity.
Defined.

(** ** [main] *)

Lemma run_init_raises w e st :
  run_init w = (Raise e, st) ->
  exists cause, e = initialization_error cause.
Proof.
  rewrite run_init_run.
  destruct (find_files w _) as [[src | e0] st0].
  - destruct (build w src st0) as [[u | e1] st']; intros H;
      [discriminate |].
    injection H as <- _. now exists e1.
  - intros H. injection H as <- _. now exists e0.
Qed.

Lemma save_raises k x d e d' :
  save k x d = (Raise e, d') -> exists cause, e = saving_error cause.
Proof.
  intros H. destruct (save_cases k x d) as [(e0 & E) | Hrun].
  - rewrite E in H. injection H as <- _. now exists e0.
  - destruct Hrun as (a & p & v & src & Ha & Hp & Hv & Hs & Hm).
    rewrite (save_run k x d a p v src Ha Hp Hv Hs Hm) in H.
    destruct (stage_and_zip k x _ _) as [r1 d1].
    destruct (cleanup k d1) as [[[] | e2] d2].
    + destruct r1 as [[] | e1]; [discriminate |].
      injection H as <- _. now exists e1.
    + injection H as <- _. now exists e2.
Qed.

(** X17. With no argument, or with more than one, [main] prints the
    line of usage and returns: the exit status is 0, and nothing has
    been scanned, staged or written. *)
Theorem X17_main_usage host k args :
  length args <> 1 ->
  main host k args
  = (0, mkSaveState None None Untouched
          ["Usage: python3 xapktool.py <apk_obb_directory>"]).
Proof.
  intros H. destruct args as [| folder [| other rest]]; try reflexivity.
  now contradiction H.
Qed.

Lemma X17_main_usage_witness :
  main host_full sink_ok []
  = (0, mkSaveState None None Untouched
          ["Usage: python3 xapktool.py <apk_obb_directory>"])
  /\ main host_full sink_ok ["in"; "out"]
     = (0, mkSaveState None None Untouched
             ["Usage: python3 xapktool.py <apk_obb_directory>"]).
Proof.
  split.
  - apply (X17_main_usage host_full sink_ok []). discriminate.
  - apply (X17_main_usage host_full sink_ok ["in"; "out"]). discriminate.
Defined.

(** X18. When the constructor raises, [main] exits with status 1; the
    last line it prints is [Error: ] followed by the text of the
    exception, which starts with [Initialization: ]; and nothing has
    been staged or written: there is no staging directory, the archive
    has not been opened and [self.name] has not been set. *)
Theorem X18_main_after_failed_constructor host k folder e :
  XAPK_new (host folder) = Raise e ->
  fst (main host k [folder]) = 1
  /\ last (stdout (snd (main host k [folder]))) "" = ("Error: " ++ exc_str e)%string
  /\ (exists cause, exc_str e = ("Initialization: " ++ exc_str cause)%string)
  /\ self_name (snd (main host k [folder])) = None
  /\ zip_dir (snd (main host k [folder])) = None
  /\ zip_file (snd (main host k [folder])) = Untouched.
Proof.
  unfold XAPK_new, main.
  destruct (run_init (host folder)) as [[[] | e0] st] eqn:E; [discriminate |].
  intros H. injection H as ->.
  destruct (run_init_raises _ _ _ E) as (cause & ->).
  unfold handle. cbn. rewrite last_last.
  repeat split; trivial. now exists cause.
Qed.

Lemma X18_main_after_failed_constructor_witness :
  fst (main host_other sink_ok ["in"]) = 1
  /\ last (stdout (snd (main host_other sink_ok ["in"]))) ""
     = "Error: Initialization: The APK and OBB files do not belong to the same app."
  /\ zip_file (snd (main host_other sink_ok ["in"])) = Untouched.
Proof.
  destruct (X18_main_after_failed_constructor host_other sink_ok "in"
              (initialization_error mismatch_error))
    as (S1 & L & _ & _ & _ & Z).
  - vm_compute. reflexivity.
  - split; [exact S1 |]. split; [exact L | exact Z].
Defined.

(** X19. When the constructor returns, the exit status of [main] is 0
    exactly when [save] returns; when [save] raises, the status is 1
    and the last line printed is [Error: ] followed by the text of the
    exception, which starts with [Saving: ].  In no case does [main]
    use the handler of the unexpected errors. *)
Theorem X19_main_after_constructor host k folder u st :
  run_init (host folder) = (Ok u, st) ->
  (fst (main host k [folder]) = 0
   <-> exists d', save k (self st) (at_start (printed (out st))) = (Ok tt, d'))
  /\ (forall e d',
        save k (self st) (at_start (printed (out st))) = (Raise e, d') ->
        fst (main host k [folder]) = 1
        /\ last (stdout (snd (main host k [folder]))) ""
           = ("Error: " ++ exc_str e)%string
        /\ exists cause, exc_str e = ("Saving: " ++ exc_str cause)%string).
Proof.
  intros E. unfold main. rewrite E.
  destruct (save k (self st) (at_start (printed (out st))))
    as [[[] | e] d1] eqn:Es.
  - split; [split; [now exists d1 | reflexivity] |].
    intros e d' H. discriminate.
  - destruct (save_raises _ _ _ _ _ Es) as (cause & ->).
    split.
    + split; [discriminate | intros (d' & H); discriminate].
    + intros e d' H. injection H as <- <-.
      unfold handle. cbn. rewrite last_last.
      repeat split. now exists cause.
Qed.

Lemma X19_main_after_constructor_witness :
  fst (main host_full sink_ok ["in"]) = 0
  /\ fst (main host_full (sink_copy_fails "asset.pack1.apk") ["in"]) = 1
  /\ last (stdout (snd (main host_full (sink_copy_fails "asset.pack1.apk")
                          ["in"]))) ""
     = "Error: Saving: copy failed".
Proof.
  destruct (X19_main_after_constructor host_full sink_ok "in"
              tt (snd (run_init w_full)))
    as ((_ & Hok) & _); [vm_compute; reflexivity |].
  destruct (X19_main_after_constructor host_full
              (sink_copy_fails "asset.pack1.apk") "in"
              tt (snd (run_init w_full)))
    as (_ & Hfail); [vm_compute; reflexivity |].
  split.
  - apply Hok.
    exists (snd (save sink_ok (self (snd (run_init w_full)))
                  (at_start (printed (out (snd (run_init w_full))))))).
    vm_compute. reflexivity.
  - destruct (Hfail (saving_error (mkExc OtherException "copy failed"))
                (snd (save (sink_copy_fails "asset.pack1.apk")
                        (self (snd (run_init w_full)))
                        (at_start (printed (out (snd (run_init w_full))))))))
      as (S1 & L & _); [vm_compute; reflexivity |].
    split; [exact S1 | exact L].
Defined.

(** ** The roles of the files in the object *)

(** X5. No file of the folder is taken twice or in two roles: in the
    object that the constructor returns for a folder whose enumeration
    has no name twice, the expansion files and the splits together
    have no name twice, and [base.apk], the base package, is not among
    them.  The expansion files are the names that end in [.obb]; the
    splits are those of [config.*.apk] first, then those of
    [asset.*.apk]; each group keeps the order of the enumeration. *)
Theorem X5_roles_are_disjoint w x :
  XAPK_new w = Ok x ->
  NoDup (entries w) ->
  NoDup (obb_files x ++ split_config_files x)
  /\ ~ In "base.apk" (obb_files x ++ split_config_files x)
  /\ apk_src x = Some "base.apk"
  /\ obb_files x = filter (Pathlib.fnmatch "*.obb") (entries w)
  /\ split_config_files x
     = filter (Pathlib.fnmatch "config.*.apk") (entries w)
       ++ filter (Pathlib.fnmatch "asset.*.apk") (entries w).
Proof.
  intros Hx Hnd.
  destruct (constructed w x Hx) as (a & m & p & v & Ex & _ & _ & S & _).
  destruct (described_fields w a m) as (_ & _ & Fo & Fc & _).
  rewrite <- Ex in Fo, Fc. rewrite Fo, Fc.
  destruct (resolved_roles w Hnd) as (N & B).
  now repeat split.
Qed.

Lemma X5_roles_are_disjoint_witness :
  NoDup (obb_files x_full ++ split_config_files x_full)
  /\ ~ In "base.apk" (obb_files x_full ++ split_config_files x_full)
  /\ apk_src x_full = Some "base.apk"
  /\ obb_files x_full = filter (Pathlib.fnmatch "*.obb") (entries w_full)
  /\ split_config_files x_full
     = filter (Pathlib.fnmatch "config.*.apk") (entries w_full)
       ++ filter (Pathlib.fnmatch "asset.*.apk") (entries w_full).
Proof.
  apply (X5_roles_are_disjoint w_full x_full).
  - vm_compute. reflexivity.
  - repeat constructor; cbn; intuition discriminate.
Defined.
